(** * ABI_Hackastra: the analytics tools of [tools.py]

    A shallow embedding of the tool layer of the assistant (the output
    formatters, the customer order lookup, the business code executor and
    the two audit checks) together with the properties of its
    specification.

    Conventions of the embedding.
    - [load_data()] reads four CSV files; every tool starts by calling it.
      The outcome of that call is an argument [data : load_result] of the
      embedded tool.
    - [datetime.now()] is an argument [now : Timestamp].
    - [exec] and [IsolationForest] are library code; they are arguments
      too (an interpreter and a predictor).
    - Python [str] is a Rocq [string] of UTF-8 bytes; Python [int] is [Z];
      Python [float] (and [numpy.float64], its subclass) is an IEEE-754
      binary64 value, [spec_float] at precision 53.
    - [str.strip] and [str.upper] work on code points, by the tables of
      the Unicode database; they are arguments too ([StrMethods]).
    - A tool that can let a fault escape returns an [outcome]. *)

From Stdlib Require Import ZArith List String Ascii Lia DecimalString.
From Stdlib Require Import Floats.SpecFloat.
From stdpp Require Import gmap strings.

Open Scope string_scope.
Open Scope Z_scope.

(* ================================================================== *)
(** * 1. Text primitives of the Python runtime *)
(* ================================================================== *)

Module PyStr.

(** [s * n] *)
Fixpoint repeat_str (s : string) (n : nat) : string :=
  match n with
  | O => ""
  | S n' => s ++ repeat_str s n'
  end.

(** [sep.join(parts)] *)
Definition join (sep : string) (parts : list string) : string :=
  String.concat sep parts.

(** ["".join(parts)] *)
Definition concat_all (parts : list string) : string :=
  fold_right String.append "" parts.

(** [needle in hay], on byte strings. *)
Fixpoint contains (needle hay : string) : bool :=
  String.prefix needle hay ||
  match hay with
  | EmptyString => false
  | String _ hay' => contains needle hay'
  end.

(** The declarative reading of [needle in hay]. *)
Definition Contains (needle hay : string) : Prop :=
  exists l r : string, hay = l ++ needle ++ r.

(** [str.isspace] on the ASCII range: tab, LF, VT, FF, CR, the four
    separators FS..US and the space.  [lstrip], [rstrip], [strip] and
    [upper] below are the methods of [str] on ASCII text; on other text
    the runtime goes by the Unicode database, and the tools take its
    methods as an argument ([StrMethods]). *)
Definition is_space (c : ascii) : bool :=
  let n := N_of_ascii c in
  ((9 <=? n) && (n <=? 13) || (28 <=? n) && (n <=? 32))%N.

Fixpoint lstrip (s : string) : string :=
  match s with
  | EmptyString => EmptyString
  | String c s' => if is_space c then lstrip s' else s
  end.

(** Drops the trailing white space: a character is kept when it is not
    white space or when something is kept after it. *)
Fixpoint rstrip (s : string) : string :=
  match s with
  | EmptyString => EmptyString
  | String c s' =>
      match rstrip s' with
      | EmptyString => if is_space c then EmptyString else String c EmptyString
      | kept => String c kept
      end
  end.

(** [s.strip()], for an ASCII [s]. *)
Definition strip (s : string) : string := rstrip (lstrip s).

Definition map_ascii (f : N -> N) (c : ascii) : ascii :=
  ascii_of_N (f (N_of_ascii c)).

Fixpoint map_str (f : ascii -> ascii) (s : string) : string :=
  match s with
  | EmptyString => EmptyString
  | String c s' => String (f c) (map_str f s')
  end.

(** [s.upper()], for an ASCII [s]. *)
Definition upper (s : string) : string :=
  map_str (map_ascii (fun n => if ((97 <=? n) && (n <=? 122))%N then (n - 32)%N else n)) s.

(** [s.lower()] on the ASCII letters; other bytes are kept.  The
    formatters only test whether the lowered name contains one of the
    ASCII words amount, price and revenue.  A letter outside ASCII lowers
    to text outside ASCII, but for U+212A (to k) and U+0130 (to i and a
    combining dot), and neither can take part in these words: the tests
    come out as in the runtime. *)
Definition lower (s : string) : string :=
  map_str (map_ascii (fun n => if ((65 <=? n) && (n <=? 90))%N then (n + 32)%N else n)) s.

(** [str(n)] for a Python [int]. *)
Definition of_int (z : Z) : string := NilZero.string_of_int (Z.to_int z).

(** [str(n)] for a count. *)
Definition of_nat (n : nat) : string := of_int (Z.of_nat n).

(** The digits of a non-negative number, as a list of characters. *)
Definition digits (n : Z) : list ascii :=
  list_ascii_of_string (NilZero.string_of_uint (N.to_uint (Z.to_N n))).

(** Walks the digits from the least significant one and puts a comma in
    front of every fourth one; [k] counts the digits left in the group. *)
Fixpoint group_rev (ds : list ascii) (k : nat) : list ascii :=
  match ds with
  | [] => []
  | d :: ds' =>
      match k with
      | O => "," %char :: d :: group_rev ds' 2
      | S k' => d :: group_rev ds' k'
      end
  end.

(** The [,] option of the format mini-language on a digit string. *)
Definition group_thousands (n : Z) : string :=
  string_of_list_ascii (rev (group_rev (rev (digits n)) 3)).

(** Two digits, zero padded: [%02d] for [0 <= n < 100]. *)
Definition pad2 (n : Z) : string :=
  if n <? 10 then "0" ++ of_int n else of_int n.

(** [f"{n:,}"] for a Python [int]. *)
Definition format_int_comma (z : Z) : string :=
  (if z <? 0 then "-" else "") ++ group_thousands (Z.abs z).

End PyStr.

(** [str.strip] and [str.upper] as the runtime has them: the tools
    normalise a customer id with the two. *)
Record StrMethods : Type := mkStrMethods {
  str_strip : string -> string;
  str_upper : string -> string
}.

(** The two methods on ASCII text: what the runtime computes on the
    identifiers of the samples. *)
Definition ascii_methods : StrMethods := mkStrMethods PyStr.strip PyStr.upper.

(** The line feed that ends every line of a report. *)
Definition newline : string := String (ascii_of_N 10) EmptyString.

(* ================================================================== *)
(** * 2. Floats and their fixed-point rendering *)
(* ================================================================== *)

Module PyFloat.

Definition prec : Z := 53.
Definition emax : Z := 1024.

(** The binary64 value nearest to [m * 2^e]. *)
Definition of_dyadic (m e : Z) : spec_float :=
  binary_normalize prec emax m e false.

Definition of_Z (m : Z) : spec_float := of_dyadic m 0.

Definition add (x y : spec_float) : spec_float := SFadd prec emax x y.

(** [math.isnan] *)
Definition is_nan (x : spec_float) : bool :=
  match x with S754_nan => true | _ => false end.

(** Division with the quotient rounded to the nearest integer, ties to
    the even one ([d > 0]). *)
Definition div_half_even (n d : Z) : Z :=
  let q := n / d in
  let r := n mod d in
  match 2 * r ?= d with
  | Lt => q
  | Gt => q + 1
  | Eq => if Z.even q then q else q + 1
  end.

(** [|x| * 100] rounded to an integer, for the finite [x = m * 2^e]:
    the printed value is the correctly rounded one. *)
Definition hundredths (m : positive) (e : Z) : Z :=
  if 0 <=? e then 100 * Z.pos m * 2 ^ e
  else div_half_even (100 * Z.pos m) (2 ^ (- e)).

Definition sign_str (s : bool) : string := if s then "-" else "".

(** The shared body of [.2f] and [,.2f]: [int_part] prints the integer
    digits. *)
Definition format_fixed2 (int_part : Z -> string) (x : spec_float) : string :=
  match x with
  | S754_nan => "nan"
  | S754_infinity s => sign_str s ++ "inf"
  | S754_zero s => sign_str s ++ int_part 0 ++ ".00"
  | S754_finite s m e =>
      let h := hundredths m e in
      sign_str s ++ int_part (h / 100) ++ "." ++ PyStr.pad2 (h mod 100)
  end.

(** [f"{x:.2f}"] *)
Definition format_2f (x : spec_float) : string :=
  format_fixed2 PyStr.of_int x.

(** [f"{x:,.2f}"] *)
Definition format_comma_2f (x : spec_float) : string :=
  format_fixed2 PyStr.group_thousands x.

End PyFloat.

(* ================================================================== *)
(** * 3. Dates *)
(* ================================================================== *)

(** A [pandas.Timestamp] is a count of nanoseconds since the epoch, its
    [value] attribute.  [datetime.now()] is read on the same axis.  A
    column [pd.to_datetime] produced holds [Timestamp]s and [NaT]; a cell
    of such a column is an [option Timestamp], [None] for [NaT]. *)
Record Timestamp : Type := mkTimestamp { value : Z }.

Module PyDate.

Definition ns_per_day : Z := 86400 * 1000000000.

(** Day number of the instant, counted from 1970-01-01. *)
Definition day_of (t : Timestamp) : Z := value t / ns_per_day.

(** The proleptic Gregorian date [(year, month, day)] of a day number. *)
Definition civil_of_days (days : Z) : Z * Z * Z :=
  let z := days + 719468 in
  let era := z / 146097 in
  let doe := z mod 146097 in
  let yoe := (doe - doe / 1460 + doe / 36524 - doe / 146096) / 365 in
  let doy := doe - (365 * yoe + yoe / 4 - yoe / 100) in
  let mp := (5 * doy + 2) / 153 in
  let d := doy - (153 * mp + 2) / 5 + 1 in
  let m := if mp <? 10 then mp + 3 else mp - 9 in
  let y := yoe + era * 400 in
  (if m <=? 2 then y + 1 else y, m, d).

(** The day number of a date, the inverse of [civil_of_days]. *)
Definition days_of_civil (y m d : Z) : Z :=
  let y' := if m <=? 2 then y - 1 else y in
  let era := y' / 400 in
  let yoe := y' mod 400 in
  let doy := (153 * (if 2 <? m then m - 3 else m + 9) + 2) / 5 + d - 1 in
  let doe := yoe * 365 + yoe / 4 - yoe / 100 + doy in
  era * 146097 + doe - 719468.

(** Midnight of a calendar date. *)
Definition date (y m d : Z) : Timestamp :=
  mkTimestamp (days_of_civil y m d * ns_per_day).

(** A calendar date and a time of day. *)
Definition datetime (y m d hh mm ss : Z) : Timestamp :=
  mkTimestamp (days_of_civil y m d * ns_per_day
               + ((hh * 60 + mm) * 60 + ss) * 1000000000).

(** [t.strftime('%Y-%m-%d')]; a [Timestamp] lies between the years 1677
    and 2262, so the year has four digits. *)
Definition strftime_ymd (t : Timestamp) : string :=
  let '(y, m, d) := civil_of_days (day_of t) in
  PyStr.of_int y ++ "-" ++ PyStr.pad2 m ++ "-" ++ PyStr.pad2 d.

(** [a > b] and [a < b] on instants. *)
Definition gt (a b : Timestamp) : bool := value b <? value a.
Definition lt (a b : Timestamp) : bool := value a <? value b.

(** [(a - b).days]: whole days of the difference, rounded down. *)
Definition sub_days (a b : Timestamp) : Z := (value a - value b) / ns_per_day.

(** [pd.to_datetime(now.strftime('%Y-%m-%d'))]: midnight of the day of
    [now]. *)
Definition today_of (now : Timestamp) : Timestamp :=
  mkTimestamp (day_of now * ns_per_day).

End PyDate.

(* ================================================================== *)
(** * 4. The data set *)
(* ================================================================== *)

(** The four tables, with the columns [get_data_schema] documents, each
    field under the initial of its table.  Keys,
    names and the other text columns are strings; [price] and [amount]
    are floats; [load_data] converts [order_date], [est_delivery] and
    [date], and only [est_delivery] with [errors='coerce']: it is the one
    date that may be [NaT]. *)

Record Customer : Type := mkCustomer {
  c_customer_id : string;
  c_name : string;
  c_email : string;
  c_region : string
}.

Record Product : Type := mkProduct {
  p_product_id : string;
  p_name : string;
  p_category : string;
  p_price : spec_float;
  p_stock_level : Z
}.

Record Order : Type := mkOrder {
  o_order_id : string;
  o_customer_id : string;
  o_product_id : string;
  o_status : string;
  o_order_date : Timestamp;
  o_est_delivery : option Timestamp
}.

Record Revenue : Type := mkRevenue {
  r_revenue_id : string;
  r_order_id : string;
  r_amount : spec_float;
  r_date : Timestamp;
  r_payment_method : string
}.

(** The dictionary [load_data] returns on success. *)
Record TableBundle : Type := mkBundle {
  customers_df : list Customer;
  orders_df : list Order;
  products_df : list Product;
  revenue_df : list Revenue
}.

(** [load_data()] returns the bundle, or the text of a load error. *)
Inductive load_result : Type :=
| LoadError (message : string)
| Loaded (tables : TableBundle).

(* ================================================================== *)
(** * 5. Values an analysis can produce *)
(* ================================================================== *)

(** Scalars other than floats, as far as the formatters tell them apart. *)
Inductive obj : Type :=
| ONone                              (* None *)
| ONaT                               (* pandas.NaT *)
| ONA                                (* pandas.NA *)
| OBool (b : bool)                   (* bool, a subclass of int *)
| OInt (z : Z)                       (* int *)
| ONpInteger (z : Z)                 (* numpy.integer: not an int *)
| ONpFloating (nan : bool) (text : string)
                                     (* numpy.floating other than float64:
                                        whether it is NaN, and its str() *)
| OStr (s : string)                  (* str *)
| OOther (text : string).            (* any other scalar, with its str():
                                        pd.isna gives False for it *)

(** A scalar: [isinstance(v, float)] holds of [SFloat] alone. *)
Inductive scalar : Type :=
| SFloat (x : spec_float)            (* float and numpy.float64 *)
| SObj (o : obj).

(** A row label of an index. *)
Inductive idx_label : Type :=
| IdxInt (z : Z)                     (* int *)
| IdxBool (b : bool)                 (* bool, a subclass of int *)
| IdxOther (text : string).          (* anything else, with its str() *)

(** A cell as the row loop of the table formatter reads it: the value
    [row[col]] of the row that [iterrows] yields (in a frame whose
    columns are all numeric the integers arrive as floats), and whether
    the column [display_df[col]] has a datetime64 dtype. *)
Inductive cell : Type :=
| CDate (v : option Timestamp)       (* cell of a datetime64 column *)
| CVal (v : scalar).                 (* cell of any other column *)

(** What a row holds under a column label: a scalar cell, or a list or
    an array that is not empty.  On such a value [pd.isna] gives an
    array of answers, [first :: others], in place of one answer. *)
Inductive entry : Type :=
| Cell (c : cell)
| Many (first : bool) (others : list bool) (text : string).

(** A [pandas.DataFrame] with string column labels: the rows in order,
    each with its index label and one entry per column.  A label may
    occur more than once among the columns. *)
Record DataFrame : Type := mkDataFrame {
  df_columns : list string;
  df_rows : list (idx_label * list entry)
}.

(** The frame with the given rows of scalar cells. *)
Definition scalar_frame (columns : list string) (rows : list (idx_label * list cell))
    : DataFrame :=
  mkDataFrame columns (map (fun r => (fst r, map Cell (snd r))) rows).

(** A [pandas.Series]: the pairs [series.items()] yields. *)
Record Series : Type := mkSeries {
  series_items : list (idx_label * scalar)
}.

(** What a variable of the execution scope can hold; a module or a
    function is an [OOther]. *)
Inductive pyvalue : Type :=
| VScalar (v : scalar)
| VDataFrame (df : DataFrame)
| VSeries (s : Series).

Module PyVal.

(** [str(o)] and [f"{o}"] *)
Definition str_obj (o : obj) : string :=
  match o with
  | ONone => "None"
  | ONaT => "NaT"
  | ONA => "<NA>"
  | OBool b => if b then "True" else "False"
  | OInt z => PyStr.of_int z
  | ONpInteger z => PyStr.of_int z
  | ONpFloating _ text => text
  | OStr s => s
  | OOther text => text
  end.

(** [pd.isna(o)] *)
Definition isna_obj (o : obj) : bool :=
  match o with
  | ONone | ONaT | ONA => true
  | ONpFloating nan _ => nan
  | _ => false
  end.

(** [pd.isna(v)] *)
Definition isna (v : scalar) : bool :=
  match v with
  | SFloat x => PyFloat.is_nan x
  | SObj o => isna_obj o
  end.

(** [f"{idx}"] *)
Definition str_idx (i : idx_label) : string :=
  match i with
  | IdxInt z => PyStr.of_int z
  | IdxBool b => if b then "True" else "False"
  | IdxOther text => text
  end.

End PyVal.

(* ================================================================== *)
(** * 6. The output formatters *)
(* ================================================================== *)

(** ["─" * 70] and ["─" * 50] *)
Definition rule70 : string := Eval vm_compute in PyStr.repeat_str "─" 70.
Definition rule50 : string := Eval vm_compute in PyStr.repeat_str "─" 50.

(** [df.head(n)], that is [df.iloc[:n]]: the first [n] rows, and for a
    negative [n] all rows but the last [-n]. *)
Definition head {A : Type} (n : Z) (rows : list A) : list A :=
  if 0 <=? n then firstn (Z.to_nat n) rows
  else firstn (length rows - Z.to_nat (- n)) rows.

(** The test on the column name that selects the currency rendering of a
    table cell. *)
Definition is_money_column (col : string) : bool :=
  PyStr.contains "amount" (PyStr.lower col)
  || PyStr.contains "price" (PyStr.lower col)
  || PyStr.contains "revenue" (PyStr.lower col).

(** The [if]/[elif] chain of [format_dataframe_output] on a scalar cell:
    the text that replaces [value]. *)
Definition format_cell (col : string) (c : cell) : string :=
  match c with
  | CDate (Some t) => PyDate.strftime_ymd t
  | CDate None => "N/A"
  | CVal (SFloat x) =>
      if is_money_column col then "$" ++ PyFloat.format_comma_2f x
      else PyFloat.format_2f x
  | CVal (SObj o) =>
      if PyVal.isna_obj o then "N/A" else PyVal.str_obj o
  end.

(** [idx + 1 if isinstance(idx, int) else idx] *)
Definition record_number (idx : idx_label) : string :=
  match idx with
  | IdxInt z => PyStr.of_int (z + 1)
  | IdxBool b => PyStr.of_int ((if b then 1 else 0) + 1)
  | IdxOther text => text
  end.

(** The test [elif pd.isna(value)] needs one truth value.  A [Series]
    has none, and an array of more than one element has none: the test
    raises a [ValueError], of pandas in the first case and of NumPy in
    the second. *)
Inductive ambiguity : Type :=
| SeriesTruth
| ArrayTruth.

(** What the table formatter does: it returns its text, or the
    [ValueError] of the test leaves it. *)
Inductive formatting : Type :=
| Formatted (output : string)
| Ambiguous (what : ambiguity).

(** [col] occurs more than once among the column labels: [row[col]] is
    then a [Series] and [display_df[col]] a frame, not a column. *)
Definition repeated (col : string) (columns : list string) : bool :=
  (1 <? length (List.filter (String.eqb col) columns))%nat.

(** The [if]/[elif] chain on [row[col]].  Under a repeated label the
    first two tests fail and [pd.isna] gives a [Series].  On a list or
    an array the first two tests fail too and [pd.isna] gives an array,
    which has a truth value when it has one element. *)
Definition format_entry (columns : list string) (col : string) (value : entry)
    : formatting :=
  if repeated col columns then Ambiguous SeriesTruth
  else
    match value with
    | Cell c => Formatted (format_cell col c)
    | Many first [] text => Formatted (if first then "N/A" else text)
    | Many _ (_ :: _) _ => Ambiguous ArrayTruth
    end.

(** The inner loop over the columns: one bullet line per field, added to
    [output]. *)
Fixpoint format_fields (columns : list string) (fields : list (string * entry))
    (output : string) : formatting :=
  match fields with
  | [] => Formatted output
  | (col, value) :: rest =>
      match format_entry columns col value with
      | Formatted value =>
          format_fields columns rest (output ++ "  • " ++ col ++ ": " ++ value ++ newline)
      | Ambiguous what => Ambiguous what
      end
  end.

(** The body of the loop over [display_df.iterrows()]. *)
Definition format_record (columns : list string)
    (output : string) (r : idx_label * list entry) : formatting :=
  let output := output ++ "▸ Record " ++ record_number (fst r) ++ ":" ++ newline in
  match format_fields columns (combine columns (snd r)) output with
  | Formatted output => Formatted (output ++ newline)
  | Ambiguous what => Ambiguous what
  end.

(** The loop over [display_df.iterrows()]. *)
Fixpoint format_records (columns : list string) (rows : list (idx_label * list entry))
    (output : string) : formatting :=
  match rows with
  | [] => Formatted output
  | r :: rest =>
      match format_record columns output r with
      | Formatted output => format_records columns rest output
      | Ambiguous what => Ambiguous what
      end
  end.

Definition format_dataframe_output (df : DataFrame) (max_rows : Z) : formatting :=
  let total_rows := Z.of_nat (length (df_rows df)) in
  let display_df := head max_rows (df_rows df) in
  let output := "📊 Total Records: " ++ PyStr.of_int total_rows ++ newline in
  let output :=
    if max_rows <? total_rows
    then output ++ "📋 Showing first " ++ PyStr.of_int max_rows ++ " rows" ++ newline
    else output in
  let output := output ++ rule70 ++ newline ++ newline in
  match format_records (df_columns df) display_df output with
  | Formatted output =>
      Formatted
        (if max_rows <? total_rows
         then output ++ "⋯ and " ++ PyStr.of_int (total_rows - max_rows)
                ++ " more records" ++ newline
         else output)
  | Ambiguous what => Ambiguous what
  end.

(** The test on the semantic name of [format_series_output]. *)
Definition is_money_name (name : string) : bool :=
  PyStr.contains "amount" (PyStr.lower name)
  || PyStr.contains "revenue" (PyStr.lower name).

(** [formatted_value] of one entry of a series. *)
Definition format_series_value (name : string) (v : scalar) : string :=
  match v with
  | SFloat x =>
      if is_money_name name then "$" ++ PyFloat.format_comma_2f x
      else PyFloat.format_comma_2f x
  | SObj o => PyVal.str_obj o
  end.

Definition format_series_output (series : Series) (name : string) : string :=
  let output :=
    "📊 Analysis Results (" ++ PyStr.of_nat (length (series_items series))
      ++ " items)" ++ newline in
  let output := output ++ rule70 ++ newline ++ newline in
  fold_left
    (fun out '(idx, v) =>
       out ++ "▸ " ++ PyVal.str_idx idx ++ ": " ++ format_series_value name v ++ newline)
    (series_items series) output.

(** The text after the arrow in [format_scalar_output]: [formatted] for
    an [int] or a [float], the value itself otherwise.  A [bool] is an
    [int] and prints as 0 or 1 under the [,] format. *)
Definition format_scalar_value (v : scalar) : string :=
  match v with
  | SFloat x => "$" ++ PyFloat.format_comma_2f x
  | SObj (OInt z) => PyStr.format_int_comma z
  | SObj (OBool b) => PyStr.format_int_comma (if b then 1 else 0)
  | SObj o => PyVal.str_obj o
  end.

Definition format_scalar_output (v : scalar) (description : string) : string :=
  let output := "📊 " ++ description ++ newline in
  let output := output ++ rule70 ++ newline ++ newline in
  output ++ "▸ " ++ format_scalar_value v ++ newline.

(* ================================================================== *)
(** * 7. The customer tool *)
(* ================================================================== *)

(** A row of [orders.merge(products_df, on='product_id', how='left')]:
    the order, and the product it matched.  Without a match the product
    columns of the row are NaN. *)
Record OrderRow : Type := mkOrderRow {
  row_order : Order;
  row_product : option Product
}.

(** The left join on [product_id]: the orders keep their order, an order
    gives one row per product with its key, and one row without product
    when no product has it. *)
Definition merge_products (orders : list Order) (products : list Product)
    : list OrderRow :=
  flat_map
    (fun o =>
       match List.filter (fun p => String.eqb (p_product_id p) (o_product_id o)) products with
       | [] => [mkOrderRow o None]
       | ps => map (fun p => mkOrderRow o (Some p)) ps
       end)
    orders.

(** [row['name']], [row['category']] and [row['price']] *)
Definition row_name (row : OrderRow) : string :=
  match row_product row with Some p => p_name p | None => "nan" end.
Definition row_category (row : OrderRow) : string :=
  match row_product row with Some p => p_category p | None => "nan" end.
Definition row_price (row : OrderRow) : spec_float :=
  match row_product row with Some p => p_price p | None => S754_nan end.

(** The body of the loop over [customer_orders.iterrows()].  The two
    readings of the clock in it are the same instant [now]. *)
Definition format_order (now : Timestamp) (result : string) (row : OrderRow)
    : string :=
  let o := row_order row in
  let result := result ++ newline ++ "▸ Order ID: " ++ o_order_id o ++ newline in
  let result := result ++ "  Product: " ++ row_name row
                  ++ " (" ++ row_category row ++ ")" ++ newline in
  let result := result ++ "  Price: $" ++ PyFloat.format_2f (row_price row) ++ newline in
  let result := result ++ "  Status: " ++ o_status o ++ newline in
  let result := result ++ "  Order Date: "
                  ++ PyDate.strftime_ymd (o_order_date o) ++ newline in
  let result :=
    match o_est_delivery o with
    | Some est =>
        let result := result ++ "  Est. Delivery: "
                        ++ PyDate.strftime_ymd est ++ newline in
        if negb (String.eqb (o_status o) "Delivered") && PyDate.gt now est
        then
          let days_late := PyDate.sub_days now est in
          result ++ "  ⚠️ DELAYED: " ++ PyStr.of_int days_late
                 ++ " day(s) overdue" ++ newline
        else result
    | None => result ++ "  Est. Delivery: N/A" ++ newline
    end in
  result ++ rule50 ++ newline.

Definition get_customer_orders (py : StrMethods) (data : load_result)
    (now : Timestamp) (customer_id : string) : string :=
  match data with
  | LoadError message => message
  | Loaded data =>
      let clean_id := str_upper py (str_strip py customer_id) in
      let customer :=
        List.filter (fun c => String.eqb (c_customer_id c) clean_id) (customers_df data) in
      match customer with
      | [] => "ERROR: Customer ID '" ++ clean_id ++ "' not found in the system."
      | first :: _ =>
          let customer_orders :=
            merge_products
              (List.filter (fun o => String.eqb (o_customer_id o) clean_id) (orders_df data))
              (products_df data) in
          match customer_orders with
          | [] => "Hello " ++ c_name first
                    ++ "! You currently have no orders in the system."
          | _ =>
              let result := "👤 Customer: " ++ c_name first
                              ++ " (ID: " ++ clean_id ++ ")" ++ newline in
              let result := result ++ "📧 Email: " ++ c_email first ++ newline in
              let result := result ++ "📍 Region: " ++ c_region first ++ newline in
              let result := result ++ "📦 Total Orders: "
                              ++ PyStr.of_nat (length customer_orders)
                              ++ newline ++ newline in
              let result := result ++ rule50 ++ newline in
              fold_left (format_order now) customer_orders result
          end
      end
  end.

(* ================================================================== *)
(** * 8. The audit checks *)
(* ================================================================== *)

(** [model.fit(X)] followed by [model.predict(X)] on the one-column
    matrix of amounts: a label, 1 or -1, per row. *)
Definition predictor : Type := list spec_float -> list Z.

Definition check_for_revenue_anomalies (isolation_forest : predictor)
    (data : load_result) : string :=
  match data with
  | LoadError message => message
  | Loaded data =>
      let revenue_df := revenue_df data in
      if (length revenue_df <? 5)%nat
      then "Not enough data points to run anomaly detection."
      else
        let X := map r_amount revenue_df in
        let anomaly := isolation_forest X in
        let anomalies :=
          List.filter (fun ra : Revenue * Z => snd ra =? -1) (combine revenue_df anomaly) in
        match last anomalies with
        | Some (latest_anomaly, _) =>
            "CRITICAL REVENUE ANOMALY: Unusual pattern on "
              ++ PyDate.strftime_ymd (r_date latest_anomaly)
              ++ " - Amount: $" ++ PyFloat.format_comma_2f (r_amount latest_anomaly)
              ++ " (Order: " ++ r_order_id latest_anomaly ++ ")."
        | None => "SUCCESS: No significant revenue anomalies detected."
        end
  end.

(** The mask of the delay scan on one order.  A comparison with [NaT] is
    false. *)
Definition critically_delayed (today : Timestamp) (o : Order) : bool :=
  match o_est_delivery o with Some est => PyDate.lt est today | None => false end
  && negb (String.eqb (o_status o) "Delivered")
  && negb (String.eqb (o_status o) "Cancelled")
  && match o_est_delivery o with Some _ => true | None => false end.

(** The [name] column of [orders.merge(customers_df, on='customer_id',
    how='left')], after [str]: NaN where no customer matches. *)
Definition merge_customer_names (orders : list Order) (customers : list Customer)
    : list string :=
  flat_map
    (fun o =>
       match List.filter (fun c => String.eqb (c_customer_id c) (o_customer_id o)) customers with
       | [] => ["nan"]
       | cs => map c_name cs
       end)
    orders.

Definition check_for_critical_delays (data : load_result) (now : Timestamp)
    : string :=
  match data with
  | LoadError message => message
  | Loaded data =>
      let today := PyDate.today_of now in
      let critically_delayed_orders :=
        List.filter (critically_delayed today) (orders_df data) in
      match critically_delayed_orders with
      | _ :: _ =>
          let count := length critically_delayed_orders in
          let delayed_with_customers :=
            merge_customer_names critically_delayed_orders (customers_df data) in
          let order_list := firstn 3 (map o_order_id critically_delayed_orders) in
          let customer_names := firstn 3 delayed_with_customers in
          "ALERT: " ++ PyStr.of_nat count ++ " orders are critically delayed!" ++ newline
            ++ "Affected Orders: " ++ PyStr.join ", " order_list ++ newline
            ++ "Affected Customers: " ++ PyStr.join ", " customer_names
      | [] => "SUCCESS: No critical delivery delays found."
      end
  end.

(* ================================================================== *)
(** * 9. The business tool *)
(* ================================================================== *)

(** A fault in flight.  [is_Exception] tells whether [except Exception]
    catches it; [exc_str] is what [str(e)] does in a handler and
    [exc_traceback] what [traceback.format_exc()] does there: each of
    the two gives a text, or raises a fault of its own. *)
Inductive PyException : Type :=
| mkException (is_Exception : bool) (exc_str exc_traceback : rendering)
with rendering : Type :=
| Text (text : string)
| Fault (e : PyException).

Definition is_Exception (e : PyException) : bool :=
  match e with mkException b _ _ => b end.

Definition exc_str (e : PyException) : rendering :=
  match e with mkException _ r _ => r end.

Definition exc_traceback (e : PyException) : rendering :=
  match e with mkException _ _ r => r end.

(** What a call can do: return, or let a fault escape. *)
Inductive outcome (A : Type) : Type :=
| Returns (a : A)
| Propagates (e : PyException).
Arguments Returns {A} a.
Arguments Propagates {A} e.

(** [exec(python_code, {}, local_env)] either runs to the end, leaving
    its bindings in [local_env], or raises.  An [interpreter] is [exec]
    at the time of one call: the snippet can read the clock and the
    files through the modules of its scope, so another call may meet
    another interpreter. *)
Inductive exec_result : Type :=
| Completed (local_env : gmap string pyvalue)
| Raised (e : PyException).

Definition interpreter : Type := string -> gmap string pyvalue -> exec_result.

(** The tables as the frames [pd.read_csv] builds, under a RangeIndex. *)
Definition range_index (rows : list (list cell)) : list (idx_label * list cell) :=
  imap (fun i r => (IdxInt (Z.of_nat i), r)) rows.

Definition text_cell (s : string) : cell := CVal (SObj (OStr s)).

Definition frame_of_customers (t : list Customer) : DataFrame :=
  scalar_frame ["customer_id"; "name"; "email"; "region"]
    (range_index
       (map (fun c => [text_cell (c_customer_id c); text_cell (c_name c);
                       text_cell (c_email c); text_cell (c_region c)]) t)).

Definition frame_of_orders (t : list Order) : DataFrame :=
  scalar_frame ["order_id"; "customer_id"; "product_id"; "status";
               "order_date"; "est_delivery"]
    (range_index
       (map (fun o => [text_cell (o_order_id o); text_cell (o_customer_id o);
                       text_cell (o_product_id o); text_cell (o_status o);
                       CDate (Some (o_order_date o)); CDate (o_est_delivery o)]) t)).

Definition frame_of_products (t : list Product) : DataFrame :=
  scalar_frame ["product_id"; "name"; "category"; "price"; "stock_level"]
    (range_index
       (map (fun p => [text_cell (p_product_id p); text_cell (p_name p);
                       text_cell (p_category p); CVal (SFloat (p_price p));
                       CVal (SObj (OInt (p_stock_level p)))]) t)).

Definition frame_of_revenue (t : list Revenue) : DataFrame :=
  scalar_frame ["revenue_id"; "order_id"; "amount"; "date"; "payment_method"]
    (range_index
       (map (fun r => [text_cell (r_revenue_id r); text_cell (r_order_id r);
                       CVal (SFloat (r_amount r)); CDate (Some (r_date r));
                       text_cell (r_payment_method r)]) t)).

(** The dictionary of frames, [data_map]. *)
Definition data_map (data : TableBundle) : gmap string pyvalue :=
  <["revenue_df" := VDataFrame (frame_of_revenue (revenue_df data))]>
  (<["products_df" := VDataFrame (frame_of_products (products_df data))]>
  (<["orders_df" := VDataFrame (frame_of_orders (orders_df data))]>
  (<["customers_df" := VDataFrame (frame_of_customers (customers_df data))]> ∅))).

(** [isinstance(o, (int, float, np.integer, np.floating))] for a value
    that is not a [float]. *)
Definition is_number_obj (o : obj) : bool :=
  match o with
  | OInt _ | OBool _ | ONpInteger _ | ONpFloating _ _ => true
  | _ => false
  end.

Definition no_result_message : string :=
  "❌ Error: The code ran, but no variable named 'result' was defined. Please assign the final answer to 'result'.".

Definition none_warning : string :=
  "⚠️ Warning: The calculation returned None. Please check your code logic.".

(** The lines added to [error_msg] after the traceback. *)
Definition common_issues : string :=
  "Common issues:" ++ newline
  ++ "- Check column names match the schema exactly (case-sensitive)" ++ newline
  ++ "- Ensure you're using correct merge keys (customer_id, product_id, order_id)" ++ newline
  ++ "- Use suffixes when joining tables with duplicate column names (e.g., 'name' in customers and products)" ++ newline
  ++ "- Verify dataframe names: customers_df, orders_df, products_df, revenue_df".

(** The text the handler builds from the message of the fault and the
    stack trace. *)
Definition error_report (message trace : string) : string :=
  let error_msg := "Python Execution Error: " ++ message ++ newline in
  let error_msg := error_msg ++ "Traceback: " ++ trace ++ newline ++ newline in
  error_msg ++ common_issues.

(** The [except Exception as e] handler: [str(e)] first, then
    [traceback.format_exc()]; a fault of either leaves the function. *)
Definition handle_exception (e : PyException) : outcome string :=
  match exc_str e with
  | Text message =>
      match exc_traceback e with
      | Text trace => Returns (error_report message trace)
      | Fault inner => Propagates inner
      end
  | Fault inner => Propagates inner
  end.

(** The branch [if 'result' in local_env]: the dispatch on the type of
    the result, with the default cap, name and description. *)
Definition format_result (result_value : pyvalue) : formatting :=
  match result_value with
  | VScalar (SObj ONone) => Formatted none_warning
  | VDataFrame df => format_dataframe_output df 10
  | VSeries s => Formatted (format_series_output s "Value")
  | VScalar (SFloat x) => Formatted (format_scalar_output (SFloat x) "Result")
  | VScalar (SObj o) =>
      Formatted
        (if is_number_obj o then format_scalar_output (SObj o) "Result"
         else PyVal.str_obj o)
  end.

Section Executor.

(** The interpreter behind [exec], the objects the scope binds to [pd],
    [datetime] and the three formatters, and the [ValueError] of a test
    without truth value as the handler reads it: its message and its
    stack trace. *)
Variable exec : interpreter.
Variable library : string -> pyvalue.
Variable value_error : ambiguity -> string * string.

(** The [ValueError], an [Exception]. *)
Definition value_error_of (what : ambiguity) : PyException :=
  mkException true (Text (fst (value_error what))) (Text (snd (value_error what))).

Definition local_env_of (data : TableBundle) : gmap string pyvalue :=
  let local_env := data_map data in
  let local_env := <["pd" := library "pd"]> local_env in
  let local_env := <["datetime" := library "datetime"]> local_env in
  let local_env :=
    <["format_dataframe_output" := library "format_dataframe_output"]> local_env in
  let local_env :=
    <["format_series_output" := library "format_series_output"]> local_env in
  <["format_scalar_output" := library "format_scalar_output"]> local_env.

Definition execute_pandas_code_business (data : load_result)
    (python_code : string) : outcome string :=
  match data with
  | LoadError message => Returns message
  | Loaded data =>
      let local_env := local_env_of data in
      match exec python_code local_env with
      | Completed local_env =>
          match local_env !! "result" with
          | Some result_value =>
              match format_result result_value with
              | Formatted output => Returns output
              | Ambiguous what => handle_exception (value_error_of what)
              end
          | None => Returns no_result_message
          end
      | Raised e =>
          if is_Exception e then handle_exception e
          else Propagates e
      end
  end.

End Executor.

(* ================================================================== *)
(** * 10. A sample data set and sample snippets *)
(* ================================================================== *)

Module Sample.

(** Customer CUST_001 has two orders that were both due in March 2024:
    one delivered, one only shipped.  Customer CUST_002 has one pending
    order without a delivery estimate; CUST_003 has no order. *)
Definition customers : list Customer :=
  [ mkCustomer "CUST_001" "Asha Rao" "asha@example.com" "South";
    mkCustomer "CUST_002" "Ben Ortiz" "ben@example.com" "West";
    mkCustomer "CUST_003" "Chen Li" "chen@example.com" "East" ].

Definition products : list Product :=
  [ mkProduct "PROD_01" "Laptop" "Electronics" (PyFloat.of_dyadic 2399 (-1)) 50;
    mkProduct "PROD_02" "Desk" "Furniture" (PyFloat.of_Z 250) 7 ].

Definition orders : list Order :=
  [ mkOrder "ORD_100" "CUST_001" "PROD_01" "Delivered"
      (PyDate.date 2024 3 1) (Some (PyDate.date 2024 3 5));
    mkOrder "ORD_101" "CUST_001" "PROD_02" "Shipped"
      (PyDate.date 2024 3 2) (Some (PyDate.date 2024 3 8));
    mkOrder "ORD_102" "CUST_002" "PROD_09" "Pending"
      (PyDate.date 2024 3 3) None ].

(** The amounts 100.0, 200.0 and 300.50 of the specification. *)
Definition revenue : list Revenue :=
  [ mkRevenue "REV_1" "ORD_100" (PyFloat.of_Z 100) (PyDate.date 2024 3 1) "card";
    mkRevenue "REV_2" "ORD_101" (PyFloat.of_Z 200) (PyDate.date 2024 3 2) "cash";
    mkRevenue "REV_3" "ORD_102" (PyFloat.of_dyadic 601 (-1)) (PyDate.date 2024 3 3) "card" ].

Definition tables : TableBundle := mkBundle customers orders products revenue.

(** 2024-03-20, 10:30. *)
Definition now : Timestamp := PyDate.datetime 2024 3 20 10 30 0.

(** A pending order of CUST_001 that is due on the day of [now], and
    the tables with this order alone. *)
Definition due_today_order : Order :=
  mkOrder "ORD_200" "CUST_001" "PROD_01" "Pending"
    (PyDate.date 2024 3 15) (Some (PyDate.date 2024 3 20)).

Definition due_today : TableBundle :=
  mkBundle customers [due_today_order] products revenue.

(** The library objects of the scope; the text of such an object is not
    observed by the tools. *)
Definition library (name : string) : pyvalue :=
  VScalar (SObj (OOther ("<" ++ name ++ ">"))).

(** [df[col]] on a column of floats: the series of its values, if the
    frame has the column. *)
Definition float_column (df : DataFrame) (col : string) : option Series :=
  match list_find (String.eqb col) (df_columns df) with
  | Some (i, _) =>
      Some (mkSeries
              (omap (fun r : idx_label * list entry =>
                       match snd r !! i with
                       | Some (Cell (CVal (SFloat x))) => Some (fst r, SFloat x)
                       | _ => None
                       end)
                    (df_rows df)))
  | None => None
  end.

(** [series.sum()] on floats: NaN entries are skipped, the others are
    added from the left. *)
Definition sum (s : Series) : spec_float :=
  fold_left
    (fun acc iv =>
       match snd iv with
       | SFloat x => if PyFloat.is_nan x then acc else PyFloat.add acc x
       | SObj _ => acc
       end)
    (series_items s) (S754_zero false).

Definition amount_column (local_env : gmap string pyvalue) : option Series :=
  match local_env !! "revenue_df" with
  | Some (VDataFrame df) => float_column df "amount"
  | _ => None
  end.

(** [df[[col, col]]]: the frame with the column twice, if the frame
    has the column. *)
Definition column_twice (df : DataFrame) (col : string) : option DataFrame :=
  match list_find (String.eqb col) (df_columns df) with
  | Some (i, _) =>
      Some (mkDataFrame [col; col]
              (map (fun r : idx_label * list entry =>
                      (fst r, match snd r !! i with
                              | Some value => [value; value]
                              | None => []
                              end))
                   (df_rows df)))
  | None => None
  end.

Definition key_error (key : string) : PyException :=
  mkException true (Text ("'" ++ key ++ "'"))
    (Text ("Traceback (most recent call last):" ++ newline
           ++ "  ..." ++ newline ++ "KeyError: '" ++ key ++ "'" ++ newline)).

Definition zero_division : PyException :=
  mkException true (Text "division by zero")
    (Text ("Traceback (most recent call last):" ++ newline
           ++ "  ..." ++ newline ++ "ZeroDivisionError: division by zero" ++ newline)).

(** [SystemExit] derives from [BaseException], not from [Exception]. *)
Definition system_exit : PyException :=
  mkException false (Text "bye")
    (Text ("Traceback (most recent call last):" ++ newline
           ++ "  ..." ++ newline ++ "SystemExit: bye" ++ newline)).

(** An [Exception] of a class whose [__str__] divides by zero. *)
Definition unprintable : PyException :=
  mkException true (Fault zero_division)
    (Text ("Traceback (most recent call last):" ++ newline
           ++ "  ..." ++ newline ++ "E: <exception str() failed>" ++ newline)).

(** The message of the [ValueError] of a test without truth value, and
    a stack trace for it. *)
Definition value_error (what : ambiguity) : string * string :=
  let message :=
    match what with
    | SeriesTruth =>
        "The truth value of a Series is ambiguous. Use a.empty, a.bool(), a.item(), a.any() or a.all()."
    | ArrayTruth =>
        "The truth value of an array with more than one element is ambiguous. Use a.any() or a.all()"
    end in
  (message,
   "Traceback (most recent call last):" ++ newline
     ++ "  ..." ++ newline ++ "ValueError: " ++ message ++ newline).

(** What CPython does on a handful of one-line snippets.  Any other
    text is outside the sample and read as an empty program. *)
Definition exec : interpreter := fun python_code local_env =>
  if String.eqb python_code "result = revenue_df['amount'].sum()" then
    match amount_column local_env with
    | Some s => Completed (<["result" := VScalar (SFloat (sum s))]> local_env)
    | None => Raised (key_error "amount")
    end
  else if String.eqb python_code "total = revenue_df['amount'].sum()" then
    match amount_column local_env with
    | Some s => Completed (<["total" := VScalar (SFloat (sum s))]> local_env)
    | None => Raised (key_error "amount")
    end
  else if String.eqb python_code "result = revenue_df['amount']" then
    match amount_column local_env with
    | Some s => Completed (<["result" := VSeries s]> local_env)
    | None => Raised (key_error "amount")
    end
  else if String.eqb python_code "result = len(orders_df)" then
    match local_env !! "orders_df" with
    | Some (VDataFrame df) =>
        Completed (<["result" := VScalar (SObj (OInt (Z.of_nat (length (df_rows df)))))]>
                     local_env)
    | _ => Raised (key_error "orders_df")
    end
  else if String.eqb python_code "result = customers_df[['name', 'name']]" then
    match local_env !! "customers_df" with
    | Some (VDataFrame df) =>
        match column_twice df "name" with
        | Some twice => Completed (<["result" := VDataFrame twice]> local_env)
        | None => Raised (key_error "name")
        end
    | _ => Raised (key_error "customers_df")
    end
  else if String.eqb python_code "result = 1 / 0" then Raised zero_division
  else if String.eqb python_code "raise SystemExit('bye')" then Raised system_exit
  else if String.eqb python_code
            "raise type('E', (Exception,), {'__str__': lambda self: 1 / 0})()"
  then Raised unprintable
  else Completed local_env.

(** The whole tool on the sample interpreter and library. *)
Definition run (data : load_result) (python_code : string) : outcome string :=
  execute_pandas_code_business exec library value_error data python_code.

End Sample.

(* ================================================================== *)
(** * 11. The reports, as the specification describes them *)
(* ================================================================== *)

(** The definitions of this part follow the words of the specification;
    the theorems compare them with the functions above. *)
Module Report.

(** The heading of a scalar report: the description and a rule. *)
Definition scalar_header (description : string) : string :=
  "📊 " ++ description ++ newline ++ rule70 ++ newline ++ newline.

(** [isinstance(o, int)]: an [int] or a [bool]. *)
Definition is_python_int (o : obj) : bool :=
  match o with
  | OInt _ | OBool _ => true
  | _ => false
  end.

(** The heading of a series report: the item count and a rule. *)
Definition series_header (items : nat) : string :=
  "📊 Analysis Results (" ++ PyStr.of_nat items ++ " items)" ++ newline
    ++ rule70 ++ newline ++ newline.

(** One line of a series report whose entries are not currency: a
    float with thousands separators and two decimals, anything else
    as its text. *)
Definition plain_series_line (entry : idx_label * scalar) : string :=
  "▸ " ++ PyVal.str_idx (fst entry) ++ ": "
    ++ match snd entry with
       | SFloat x => PyFloat.format_comma_2f x
       | SObj o => PyVal.str_obj o
       end
    ++ newline.






(** The heading of the order report of a customer. *)
Definition customer_header (c : Customer) (clean_id : string) (orders : nat)
    : string :=
  "👤 Customer: " ++ c_name c ++ " (ID: " ++ clean_id ++ ")" ++ newline
    ++ "📧 Email: " ++ c_email c ++ newline
    ++ "📍 Region: " ++ c_region c ++ newline
    ++ "📦 Total Orders: " ++ PyStr.of_nat orders ++ newline ++ newline
    ++ rule50 ++ newline.

(** The lines of an order block that do not depend on the clock: order
    id, product, price, status, order date and estimated delivery. *)
Definition order_lines (row : OrderRow) : string :=
  let o := row_order row in
  newline ++ "▸ Order ID: " ++ o_order_id o ++ newline
    ++ "  Product: " ++ row_name row ++ " (" ++ row_category row ++ ")" ++ newline
    ++ "  Price: $" ++ PyFloat.format_2f (row_price row) ++ newline
    ++ "  Status: " ++ o_status o ++ newline
    ++ "  Order Date: " ++ PyDate.strftime_ymd (o_order_date o) ++ newline
    ++ "  Est. Delivery: "
    ++ match o_est_delivery o with
       | Some est => PyDate.strftime_ymd est
       | None => "N/A"
       end
    ++ newline.

(** The delay flag of an order block. *)
Definition delay_flag (days_late : Z) : string :=
  "  ⚠️ DELAYED: " ++ PyStr.of_int days_late ++ " day(s) overdue" ++ newline.

(** The rule that closes an order block. *)
Definition block_end : string := rule50 ++ newline.

(** An order block carries the delay flag when the flag stands between
    its lines and its closing rule. *)
Definition carries_delay_flag (block : string) (row : OrderRow) : Prop :=
  exists days_late : Z, block = order_lines row ++ delay_flag days_late ++ block_end.

(** The order is late: its status is not Delivered, its estimated
    delivery is known and the current time is strictly after it. *)
Definition late (now : Timestamp) (o : Order) : Prop :=
  o_status o <> "Delivered"
  /\ exists est, o_est_delivery o = Some est /\ value est < value now.

(** The order is critically delayed: its estimated delivery is known
    and strictly before today, and its status is neither Delivered nor
    Cancelled. *)
Definition overdue (today : Timestamp) (o : Order) : Prop :=
  (exists est, o_est_delivery o = Some est /\ value est < value today)
  /\ o_status o <> "Delivered"
  /\ o_status o <> "Cancelled".

(** [today] is midnight of the day of [now]: an instant on a day
    boundary, with [now] in the day that starts there.  A day has
    86400 seconds of 1000000000 nanoseconds. *)
Definition midnight_of (now today : Timestamp) : Prop :=
  value today mod 86400000000000 = 0
  /\ value today <= value now < value today + 86400000000000.

(** The names of the customers an order belongs to: the names of the
    rows of the customer table that have the customer id of the order,
    in table order, and the text nan for an order of no customer. *)
Definition customer_names_of (customers : list Customer) (o : Order) : list string :=
  match omap (fun c => if String.eqb (c_customer_id c) (o_customer_id o)
                       then Some (c_name c) else None) customers with
  | [] => ["nan"]
  | names => names
  end.

(** The customer names of the affected orders, order after order. *)
Definition affected_customers (customers : list Customer) (affected : list Order)
    : list string :=
  concat (map (customer_names_of customers) affected).

(** The alert line for the affected orders: their number, the first
    three order ids and the first three customer names. *)
Definition alert (customers : list Customer) (affected : list Order) : string :=
  "ALERT: " ++ PyStr.of_nat (length affected) ++ " orders are critically delayed!"
    ++ newline
    ++ "Affected Orders: " ++ PyStr.join ", " (firstn 3 (map o_order_id affected))
    ++ newline
    ++ "Affected Customers: "
    ++ PyStr.join ", " (firstn 3 (affected_customers customers affected)).

End Report.

(** The parts of the customer report that the theorems name. *)
Module Lookup.

(** The identifier after trimming and upper-casing. *)
Definition normalize (py : StrMethods) (customer_id : string) : string :=
  str_upper py (str_strip py customer_id).

(** The rows of the join for the customer: that customer's orders,
    left-joined with the products. *)
Definition join_rows (data : TableBundle) (clean_id : string) : list OrderRow :=
  merge_products
    (List.filter (fun o => String.eqb (o_customer_id o) clean_id) (orders_df data))
    (products_df data).

(** The flag the loop adds to the block of a row, or nothing. *)
Definition flag_of (now : Timestamp) (o : Order) : string :=
  match o_est_delivery o with
  | Some est =>
      if negb (String.eqb (o_status o) "Delivered") && PyDate.gt now est
      then Report.delay_flag (PyDate.sub_days now est)
      else ""
  | None => ""
  end.

(** The block the loop adds for a row. *)
Definition order_block (now : Timestamp) (row : OrderRow) : string :=
  format_order now "" row.

End Lookup.

(* ================================================================== *)
(** * 11a. The login-time status check *)
(* ================================================================== *)

(** The dictionary [check_customer_order_status] returns: [status],
    [message], and [count] where the branch sets it. *)
Record StatusInfo : Type := mkStatusInfo {
  si_status : string;
  si_message : string;
  si_count : option nat
}.

(** [status.isin(['Pending', 'Shipped'])] *)
Definition is_active_status (o : Order) : bool :=
  String.eqb (o_status o) "Pending" || String.eqb (o_status o) "Shipped".

Definition check_customer_order_status (py : StrMethods) (data : load_result)
    (now : Timestamp) (customer_id : string) : StatusInfo :=
  match data with
  | LoadError _ => mkStatusInfo "error" "Unable to load data" None
  | Loaded data =>
      let clean_id := str_upper py (str_strip py customer_id) in
      let customer_orders :=
        List.filter (fun o => String.eqb (o_customer_id o) clean_id) (orders_df data) in
      match customer_orders with
      | [] => mkStatusInfo "normal" "You have no active orders" None
      | _ :: _ =>
          let today := PyDate.today_of now in
          let delayed := List.filter (critically_delayed today) customer_orders in
          match delayed with
          | _ :: _ =>
              let count := length delayed in
              mkStatusInfo "delayed"
                ("⚠️ You have " ++ PyStr.of_nat count ++ " delayed order"
                   ++ (if (1 <? count)%nat then "s" else "") ++ "!")
                (Some count)
          | [] =>
              let on_time_count := length (List.filter is_active_status customer_orders) in
              let delivered_count :=
                length (List.filter (fun o => String.eqb (o_status o) "Delivered")
                          customer_orders) in
              if (0 <? on_time_count)%nat
              then
                mkStatusInfo "normal"
                  ("✅ All " ++ PyStr.of_nat on_time_count ++ " active order"
                     ++ (if (1 <? on_time_count)%nat then "s are" else " is")
                     ++ " on track!")
                  (Some on_time_count)
              else
                mkStatusInfo "normal"
                  ("✅ You have " ++ PyStr.of_nat delivered_count ++ " completed order"
                     ++ (if (1 <? delivered_count)%nat then "s" else ""))
                  (Some delivered_count)
          end
      end
  end.

(* ================================================================== *)
(** * 11b. The callers in [app.py] *)
(* ================================================================== *)

Module App.

(** The tests of the dashboard on the two audit lines,
    ["CRITICAL" in revenue_status] and ["ALERT" in delay_status]. *)
Definition has_revenue_issue (revenue_status : string) : bool :=
  PyStr.contains "CRITICAL" revenue_status.

Definition has_delay_issue (delay_status : string) : bool :=
  PyStr.contains "ALERT" delay_status.

(** The test of the trace panel on a tool output,
    ["ERROR" in res or "CRITICAL" in res]: true shows the output with
    [st.error], false with [st.success]. *)
Definition shown_as_error (res : string) : bool :=
  PyStr.contains "ERROR" res || PyStr.contains "CRITICAL" res.

(** The kind of the login notification of a customer:
    ["success" if status_info["status"] != "delayed" else "error"]. *)
Definition notification_type (status_info : StatusInfo) : string :=
  if negb (String.eqb (si_status status_info) "delayed") then "success" else "error".

(** [len(s)] counts code points: the bytes of the UTF-8 text that are
    not continuation bytes. *)
Fixpoint len (s : string) : nat :=
  match s with
  | EmptyString => O
  | String c s' =>
      let n := N_of_ascii c in
      ((if (128 <=? n)%N && (n <? 192)%N then 0 else 1) + len s')%nat
  end.

(** An entry of [credentials.json], as [create_new_user] writes it. *)
Record UserData : Type := mkUserData {
  ud_password : string;
  ud_role : string;
  ud_customer_id : option string
}.

(** The keys of [st.session_state] that the login touches. *)
Record SessionState : Type := mkSessionState {
  authenticated_user : option string;
  session_customer_id : option string;
  page : string;
  auth_role_pending : option string
}.

(** A message box put on the page. *)
Inductive ui_message : Type :=
| UiError (text : string)
| UiWarning (text : string)
| UiSuccess (text : string).

(** [authenticate_user]: [credentials] is what [load_credentials] reads;
    the result is the session state afterwards, the message shown, if
    any, and whether [st.rerun()] was reached. *)
Definition authenticate_user (credentials : gmap string UserData)
    (session : SessionState) (username password expected_role : string)
    : SessionState * option ui_message * bool :=
  match credentials !! username with
  | Some user_data =>
      if String.eqb (ud_password user_data) password then
        if String.eqb (ud_role user_data) expected_role then
          let customer_id :=
            if String.eqb expected_role "customer" then ud_customer_id user_data
            else session_customer_id session in
          (mkSessionState (Some username) customer_id (expected_role ++ "_chat") None,
           None, true)
        else
          (session, Some (UiError "Authentication failed: Incorrect role for this user."),
           false)
      else
        (session, Some (UiError "Authentication failed: Incorrect password."), false)
  | None =>
      (session, Some (UiError "Authentication failed: User ID not found."), false)
  end.

(** [create_new_user]: [writable] tells whether [save_credentials]
    succeeds, and a write that fails leaves the file as it was; the
    result is the content of the credentials file afterwards and the
    message shown.  An absent [customer_id] is [None]. *)
Definition create_new_user (py : StrMethods)
    (credentials : gmap string UserData) (writable : bool)
    (new_username new_password role : string) (customer_id : option string)
    : gmap string UserData * ui_message :=
  if String.eqb new_username "" || String.eqb new_password "" then
    (credentials, UiWarning "User ID and Password cannot be empty.")
  else
    match credentials !! new_username with
    | Some _ =>
        (credentials,
         UiError ("Registration failed: User ID '" ++ new_username
                    ++ "' already exists. Please choose a different name."))
    | None =>
        if (len new_password <? 6)%nat then
          (credentials, UiError "Password must be at least 6 characters long.")
        else
          let finish (user_data : UserData) :=
            if writable then
              (<[new_username := user_data]> credentials,
               UiSuccess ("Account for '" ++ new_username
                            ++ "' created successfully! You can now log in."))
            else (credentials, UiError "Failed to save new user account.") in
          if String.eqb role "customer" then
            match customer_id with
            | None => (credentials, UiError "Customer ID is required for customer accounts.")
            | Some cid =>
                if String.eqb cid "" then
                  (credentials, UiError "Customer ID is required for customer accounts.")
                else
                  finish (mkUserData new_password role
                            (Some (str_upper py (str_strip py cid))))
            end
          else finish (mkUserData new_password role None)
    end.

End App.

(** The parts of the status check that the theorems name. *)
Module Status.

(** The orders of the customer, in table order. *)
Definition orders_of (data : TableBundle) (clean_id : string) : list Order :=
  List.filter (fun o => String.eqb (o_customer_id o) clean_id) (orders_df data).

(** The orders of the customer that the delay scan selects. *)
Definition delayed_of (data : TableBundle) (now : Timestamp) (clean_id : string)
    : list Order :=
  List.filter (critically_delayed (PyDate.today_of now)) (orders_of data clean_id).

End Status.

(** More sample rows, for the scenarios of the status check. *)
Module Scenario.

(** The shipped order of CUST_001, due on 2024-03-08. *)
Definition shipped_order : Order :=
  mkOrder "ORD_101" "CUST_001" "PROD_02" "Shipped"
    (PyDate.date 2024 3 2) (Some (PyDate.date 2024 3 8)).

Definition shipped_row : OrderRow :=
  mkOrderRow shipped_order (Some (mkProduct "PROD_02" "Desk" "Furniture" (PyFloat.of_Z 250) 7)).

(** A cancelled order of CUST_003 whose delivery date has passed. *)
Definition cancelled_order : Order :=
  mkOrder "ORD_300" "CUST_003" "PROD_01" "Cancelled"
    (PyDate.date 2024 1 5) (Some (PyDate.date 2024 1 9)).

Definition cancelled_row : OrderRow := mkOrderRow cancelled_order None.

(** The sample tables with the cancelled order as the only order. *)
Definition cancelled_only : TableBundle :=
  mkBundle Sample.customers [cancelled_order] Sample.products Sample.revenue.

Definition name_error (name : string) : PyException :=
  mkException true (Text ("name '" ++ name ++ "' is not defined"))
    (Text ("Traceback (most recent call last):" ++ newline
           ++ "  ..." ++ newline ++ "NameError: name '" ++ name ++ "' is not defined"
           ++ newline)).

(** What CPython does on three more one-line snippets: a frame as the
    result, a comparison, whose value is a [bool], and a count, whose
    value is a [numpy.int64].  Other snippets go to [Sample.exec]. *)
Definition exec : interpreter := fun python_code local_env =>
  if String.eqb python_code "result = orders_df" then
    match local_env !! "orders_df" with
    | Some v => Completed (<["result" := v]> local_env)
    | None => Raised (name_error "orders_df")
    end
  else if String.eqb python_code "result = len(orders_df) > 2" then
    match local_env !! "orders_df" with
    | Some (VDataFrame df) =>
        Completed (<["result" := VScalar (SObj (OBool (2 <? length (df_rows df))%nat))]>
                     local_env)
    | _ => Raised (name_error "orders_df")
    end
  else if String.eqb python_code "result = orders_df['order_id'].count()" then
    match local_env !! "orders_df" with
    | Some (VDataFrame df) =>
        Completed (<["result" := VScalar (SObj (ONpInteger (Z.of_nat (length (df_rows df)))))]>
                     local_env)
    | _ => Raised (name_error "orders_df")
    end
  else Sample.exec python_code local_env.

Definition run (data : load_result) (python_code : string) : outcome string :=
  execute_pandas_code_business exec Sample.library Sample.value_error data python_code.

(** Five revenue rows, the fourth far above the others, and a detector
    that labels the amounts above 1000. *)
Definition revenue5 : list Revenue :=
  [ mkRevenue "REV_1" "ORD_100" (PyFloat.of_Z 100) (PyDate.date 2024 3 1) "card";
    mkRevenue "REV_2" "ORD_101" (PyFloat.of_Z 200) (PyDate.date 2024 3 2) "cash";
    mkRevenue "REV_3" "ORD_102" (PyFloat.of_dyadic 601 (-1)) (PyDate.date 2024 3 3) "card";
    mkRevenue "REV_4" "ORD_103" (PyFloat.of_Z 98000) (PyDate.date 2024 3 4) "card";
    mkRevenue "REV_5" "ORD_104" (PyFloat.of_Z 150) (PyDate.date 2024 3 5) "cash" ].

Definition tables5 : TableBundle :=
  mkBundle Sample.customers Sample.orders Sample.products revenue5.

Definition above_1000 : predictor :=
  map (fun x => if SFltb (PyFloat.of_Z 1000) x then -1 else 1).

End Scenario.

(** Variations of a data set. *)
Module Tables.

(** The data set with another order table. *)
Definition with_orders (data : TableBundle) (orders : list Order) : TableBundle :=
  mkBundle (customers_df data) orders (products_df data) (revenue_df data).

(** The upper-case map of [PyStr.upper], on one character. *)
Definition up (c : ascii) : ascii :=
  PyStr.map_ascii (fun n => if ((97 <=? n) && (n <=? 122))%N then (n - 32)%N else n) c.

(** Settles a fact about one character by trying the 256 of them. *)
Ltac by_cases_on_byte c :=
  destruct c as [b0 b1 b2 b3 b4 b5 b6 b7];
  destruct b0, b1, b2, b3, b4, b5, b6, b7; reflexivity.

(** The first character of a text is not white space, or the text is
    empty. *)
Definition no_leading_space (s : string) : Prop :=
  match s with
  | EmptyString => True
  | String c _ => PyStr.is_space c = false
  end.

(** [s.isascii()] *)
Fixpoint is_ascii (s : string) : bool :=
  match s with
  | EmptyString => true
  | String c s' => (N_of_ascii c <? 128)%N && is_ascii s'
  end.

(** On ASCII text the methods of the runtime do what [PyStr.strip] and
    [PyStr.upper] do: white space is then the tab, LF, VT, FF, CR,
    FS..US and the space, and the small letters are a..z. *)
Definition on_ascii_text (py : StrMethods) : Prop :=
  forall s : string,
    is_ascii s = true ->
    str_strip py s = PyStr.strip s /\ str_upper py s = PyStr.upper s.

End Tables.

(** The parts of the revenue audit that the theorems name. *)
Module Audit.

(** The rows of the revenue table with the label the detector gave
    them. *)
Definition labelled (isolation_forest : predictor) (data : TableBundle)
    : list (Revenue * Z) :=
  combine (revenue_df data) (isolation_forest (map r_amount (revenue_df data))).

(** The line of the audit about one row. *)
Definition critical_line (r : Revenue) : string :=
  "CRITICAL REVENUE ANOMALY: Unusual pattern on "
    ++ PyDate.strftime_ymd (r_date r)
    ++ " - Amount: $" ++ PyFloat.format_comma_2f (r_amount r)
    ++ " (Order: " ++ r_order_id r ++ ").".

(** The character does not occur in the text. *)
Definition absent (c : ascii) (s : string) : Prop :=
  forall l r : string, s <> l ++ String c r.

(** The test for it. *)
Fixpoint has_char (c : ascii) (s : string) : bool :=
  match s with
  | EmptyString => false
  | String d s' => Ascii.eqb c d || has_char c s'
  end.

(** The space and the line feed, as characters. *)
Definition space : ascii := ascii_of_N 32.
Definition line_feed : ascii := ascii_of_N 10.

End Audit.

(** The two error texts of [load_data], for the text [e] of the fault. *)
Module Loader.

Definition file_not_found (e : string) : string :=
  "Error: Required data file not found: " ++ e.

Definition other_fault (e : string) : string :=
  "Error loading data: " ++ e.

End Loader.

(** Reading a formatted number back. *)
Module Digits.

Definition is_comma (c : ascii) : bool := Ascii.eqb c ","%char.

(** [s.replace(",", "")] *)
Definition without_commas (s : string) : string :=
  string_of_list_ascii
    (List.filter (fun c => negb (is_comma c)) (list_ascii_of_string s)).

(** No character of the list is a comma. *)
Definition comma_free (l : list ascii) : Prop :=
  Forall (fun c => is_comma c = false) l.

End Digits.

(** Sample accounts. *)
Module Accounts.

(** A session before any login, on the login page of the customers. *)
Definition fresh_session : App.SessionState :=
  App.mkSessionState None None "auth" (Some "customer").

(** The credentials after the registration of one customer. *)
Definition one_customer : gmap string App.UserData :=
  <["asha" := App.mkUserData "secret1" "customer" (Some "CUST_001")]> ∅.

End Accounts.

(** The tool loop of [handle_chat_interaction]. *)
Module Chat.

(** An entry of [current_tool_steps]. *)
Inductive tool_step : Type :=
| ToolCall (name : string) (args : gmap string string)
| ToolOutput (output : string).

(** A part of the first answer of the language model: text, or a
    function call with its name and its arguments (each value by its
    text).  [followup] tells what the request that sends the output of
    the call back to the model did: nothing to report, or a fault. *)
Inductive part : Type :=
| PartText (text : string)
| PartCall (name : string) (args : gmap string string) (followup : option PyException).

(** The names in [function_map]: the one tool of the role. *)
Definition function_map (role : string) : list string :=
  if String.eqb role "customer" then ["get_customer_orders"]
  else ["execute_pandas_code_business"].

(** [func_name in function_map] *)
Definition registered (role name : string) : bool :=
  existsb (String.eqb name) (function_map role).

Section Tools.

(** The string methods of the runtime, the interpreter, the library
    objects and the [ValueError] texts of the business tool, the tables
    and the clock, and the text of the [TypeError] that a call with the
    wrong keywords raises. *)
Variable py : StrMethods.
Variable exec : interpreter.
Variable library : string -> pyvalue.
Variable value_error : ambiguity -> string * string.
Variable data : load_result.
Variable now : Timestamp.
Variable type_error_text : string -> gmap string string -> string.

Definition type_error (name : string) (args : gmap string string) : PyException :=
  mkException true (Text (type_error_text name args)) (Text "").

(** The call of [function_map[func_name]] with the keywords [func_args],
    for a registered name: the call binds its keywords when they are
    exactly the parameter of the tool. *)
Definition invoke (name : string) (args : gmap string string) : outcome string :=
  if String.eqb name "get_customer_orders" then
    match args !! "customer_id" with
    | Some customer_id =>
        if (size args =? 1)%nat then Returns (get_customer_orders py data now customer_id)
        else Propagates (type_error name args)
    | None => Propagates (type_error name args)
    end
  else
    match args !! "python_code" with
    | Some python_code =>
        if (size args =? 1)%nat
        then execute_pandas_code_business exec library value_error data python_code
        else Propagates (type_error name args)
    | None => Propagates (type_error name args)
    end.

(** The text of the [except Exception as e] branch of the loop, for the
    message [str(e)]. *)
Definition error_output (name message : string) : string :=
  "Error executing " ++ name ++ ": " ++ message.

(** The [try] statement of the loop on a fault: an [Exception] is
    caught and its message recorded, unless [str(e)] raises; any other
    fault escapes. *)
Definition caught (name : string) (e : PyException) : outcome tool_step :=
  if is_Exception e then
    match exc_str e with
    | Text message => Returns (ToolOutput (error_output name message))
    | Fault inner => Propagates inner
    end
  else Propagates e.

(** The loop over the parts, from the steps recorded so far: the steps
    in the end, unless a fault escapes. *)
Fixpoint run_parts (role : string) (parts : list part)
    (current_tool_steps : list tool_step) : outcome (list tool_step) :=
  match parts with
  | [] => Returns current_tool_steps
  | PartText _ :: rest => run_parts role rest current_tool_steps
  | PartCall name args followup :: rest =>
      let steps := (current_tool_steps ++ [ToolCall name args])%list in
      if registered role name then
        match invoke name args with
        | Returns result =>
            let steps := (steps ++ [ToolOutput result])%list in
            match followup with
            | None => run_parts role rest steps
            | Some e =>
                match caught name e with
                | Returns step => run_parts role rest (steps ++ [step])%list
                | Propagates escaped => Propagates escaped
                end
            end
        | Propagates e =>
            match caught name e with
            | Returns step => run_parts role rest (steps ++ [step])%list
            | Propagates escaped => Propagates escaped
            end
        end
      else run_parts role rest steps
  end.

End Tools.

(** The calls among the parts, as the steps that record them. *)
Definition calls_of (parts : list part) : list tool_step :=
  omap (fun p => match p with
                 | PartCall name args _ => Some (ToolCall name args)
                 | PartText _ => None
                 end) parts.

(** The call steps among the steps. *)
Definition call_steps (steps : list tool_step) : list tool_step :=
  List.filter (fun s => match s with ToolCall _ _ => true | ToolOutput _ => false end) steps.

End Chat.

(* ================================================================== *)
(** * 12. Facts about the text primitives *)
(* ================================================================== *)

Module PyStrFacts.

(** The two equations of [++]; the library keeps [simpl] from
    unfolding it. *)
Lemma append_nil_l (b : string) : "" ++ b = b.
Proof. reflexivity. Qed.

Lemma append_cons (c : ascii) (a b : string) : String c a ++ b = String c (a ++ b).
Proof. reflexivity. Qed.

Lemma append_assoc (a b c : string) : (a ++ b) ++ c = a ++ b ++ c.
Proof.
  induction a as [|ch a IH]; [reflexivity |].
  rewrite !append_cons. now rewrite IH.
Qed.

Lemma append_nil_r (a : string) : a ++ "" = a.
Proof.
  induction a as [|ch a IH]; [reflexivity |].
  rewrite append_cons. now rewrite IH.
Qed.

Lemma length_append (a b : string) :
  String.length (a ++ b) = (String.length a + String.length b)%nat.
Proof.
  induction a as [|ch a IH]; [reflexivity |].
  rewrite append_cons. simpl. now rewrite IH.
Qed.

Lemma append_cancel_l (a b c : string) : a ++ b = a ++ c -> b = c.
Proof.
  induction a as [|ch a IH]; intros H; [exact H |].
  rewrite !append_cons in H. injection H as H. now apply IH.
Qed.

(** A text is not its own proper extension. *)
Lemma append_longer (a b : string) : a <> "" -> a ++ b <> b.
Proof.
  intros Ha H. apply (f_equal String.length) in H.
  rewrite length_append in H. destruct a; [congruence | simpl in H; lia].
Qed.

Lemma prefix_spec (p s : string) :
  String.prefix p s = true <-> exists r, s = p ++ r.
Proof.
  revert s. induction p as [|c p IH]; intros s.
  - destruct s; simpl; (split; [intros _; eexists; reflexivity | reflexivity]).
  - destruct s as [|d s]; simpl.
    + split; [discriminate | intros [r Hr]; discriminate].
    + destruct (Ascii.ascii_dec c d) as [->|Hne].
      * rewrite IH. split; intros [r Hr]; exists r.
        -- rewrite append_cons. now rewrite Hr.
        -- rewrite append_cons in Hr. now injection Hr.
      * split; [discriminate |].
        intros [r Hr]. rewrite append_cons in Hr. injection Hr. congruence.
Qed.

(** The substring test computes the declarative reading. *)
Lemma contains_spec (needle hay : string) :
  PyStr.contains needle hay = true <-> PyStr.Contains needle hay.
Proof.
  unfold PyStr.Contains. induction hay as [|c hay IH].
  - cbn [PyStr.contains]. rewrite orb_false_r, prefix_spec. split.
    + intros [r Hr]. now exists "", r.
    + intros [l [r Hr]]. destruct l; [now exists r | discriminate].
  - cbn [PyStr.contains]. rewrite orb_true_iff, prefix_spec, IH. split.
    + intros [[r Hr] | [l [r Hr]]].
      * now exists "", r.
      * exists (String c l), r. rewrite append_cons. now rewrite Hr.
    + intros [l [r Hr]]. destruct l as [|d l].
      * left. now exists r.
      * right. rewrite append_cons in Hr. injection Hr as _ Hr. now exists l, r.
Qed.

Lemma Contains_here (l needle r : string) : PyStr.Contains needle (l ++ needle ++ r).
Proof. now exists l, r. Qed.

Lemma Contains_append_l (needle a b : string) :
  PyStr.Contains needle b -> PyStr.Contains needle (a ++ b).
Proof.
  intros [l [r ->]]. exists (a ++ l), r. now rewrite append_assoc.
Qed.

Lemma Contains_append_r (needle a b : string) :
  PyStr.Contains needle a -> PyStr.Contains needle (a ++ b).
Proof.
  intros [l [r ->]]. exists l, (r ++ b). now rewrite !append_assoc.
Qed.

(** A loop that only appends to its accumulator adds the pieces in
    order. *)
Lemma fold_left_append {A : Type} (piece : A -> string) (step : string -> A -> string)
    (items : list A) (start : string) :
  (forall acc x, step acc x = acc ++ piece x) ->
  fold_left step items start = start ++ PyStr.concat_all (map piece items).
Proof.
  intros Hstep. revert start. induction items as [|x items IH]; intros start.
  - simpl. now rewrite append_nil_r.
  - cbn [fold_left map PyStr.concat_all fold_right].
    rewrite IH, Hstep, append_assoc. reflexivity.
Qed.

End PyStrFacts.

(* ================================================================== *)
(** * 13. The business tool: faults, missing results, dispatch *)
(* ================================================================== *)

Lemma error_report_unfold (message trace : string) :
  error_report message trace =
    "Python Execution Error: " ++ message ++ newline
      ++ "Traceback: " ++ trace ++ newline ++ newline ++ common_issues.
Proof.
  unfold error_report. now rewrite !PyStrFacts.append_assoc.
Qed.

(** The scope the snippet starts in binds the four frames, the two
    modules and the three formatters, and nothing called [result]. *)
Lemma local_env_of_no_result (library : string -> pyvalue) (data : TableBundle) :
  local_env_of library data !! "result" = None.
Proof.
  unfold local_env_of, data_map.
  repeat (rewrite lookup_insert_ne; [| discriminate]).
  apply lookup_empty.
Qed.

(** C1, as the specification states it, fails on two snippets.  The
    first raises [SystemExit], which [except Exception] does not catch.
    The second raises an [Exception] whose [__str__] divides by zero:
    the handler catches it, and the [ZeroDivisionError] of [str(e)]
    leaves the handler.  Neither call returns a string. *)
Lemma executor_lets_system_exit_escape :
  (Sample.exec "raise SystemExit('bye')" (local_env_of Sample.library Sample.tables)
     = Raised Sample.system_exit
   /\ Sample.run (Loaded Sample.tables) "raise SystemExit('bye')"
      = Propagates Sample.system_exit
   /\ forall report : string,
        Sample.run (Loaded Sample.tables) "raise SystemExit('bye')" <> Returns report)
  /\ (is_Exception Sample.unprintable = true
      /\ Sample.run (Loaded Sample.tables)
           "raise type('E', (Exception,), {'__str__': lambda self: 1 / 0})()"
         = Propagates Sample.zero_division
      /\ forall report : string,
           Sample.run (Loaded Sample.tables)
             "raise type('E', (Exception,), {'__str__': lambda self: 1 / 0})()"
           <> Returns report).
Proof.
  split; (split; [reflexivity | split; [vm_compute; reflexivity |]]);
    intros report H; vm_compute in H; discriminate H.
Qed.

(** C1 (amended): when the snippet raises a fault that is an instance of
    [Exception] and whose message and stack trace can be formatted, the
    call returns a string, and that string contains the message of the
    fault, its stack trace and the fixed list of common issues.  A fault
    of any other class leaves the call as it is, and so does the fault
    that formatting the message or the trace raises. *)
Theorem executor_reports_exceptions
    (exec : interpreter) (library : string -> pyvalue)
    (value_error : ambiguity -> string * string) (data : TableBundle)
    (python_code : string) (e : PyException) :
  exec python_code (local_env_of library data) = Raised e ->
  (forall message trace : string,
     is_Exception e = true ->
     exc_str e = Text message ->
     exc_traceback e = Text trace ->
     exists report : string,
       execute_pandas_code_business exec library value_error (Loaded data) python_code
         = Returns report
       /\ PyStr.Contains message report
       /\ PyStr.Contains trace report
       /\ PyStr.Contains common_issues report)
  /\ (is_Exception e = false ->
      execute_pandas_code_business exec library value_error (Loaded data) python_code
        = Propagates e)
  /\ (forall inner : PyException,
        is_Exception e = true ->
        exc_str e = Fault inner
        \/ (exists message, exc_str e = Text message /\ exc_traceback e = Fault inner) ->
        execute_pandas_code_business exec library value_error (Loaded data) python_code
          = Propagates inner).
Proof.
  intros Hraise. unfold execute_pandas_code_business. rewrite Hraise.
  split; [| split].
  - intros message trace Hexc Hstr Htrace. exists (error_report message trace).
    rewrite Hexc. unfold handle_exception. rewrite Hstr, Htrace.
    split; [reflexivity |]. rewrite error_report_unfold. split; [| split].
    + apply PyStrFacts.Contains_here.
    + do 3 apply PyStrFacts.Contains_append_l. apply PyStrFacts.Contains_here.
    + do 7 apply PyStrFacts.Contains_append_l.
      exists "", "". now rewrite PyStrFacts.append_nil_r.
  - intros Hexc. now rewrite Hexc.
  - intros inner Hexc H. rewrite Hexc. unfold handle_exception.
    destruct H as [Hstr | [message [Hstr Htrace]]].
    + now rewrite Hstr.
    + now rewrite Hstr, Htrace.
Qed.

Lemma executor_reports_exceptions_witness :
  exists report : string,
    Sample.run (Loaded Sample.tables) "result = 1 / 0" = Returns report
    /\ PyStr.Contains "division by zero" report
    /\ PyStr.Contains
         ("Traceback (most recent call last):" ++ newline
          ++ "  ..." ++ newline ++ "ZeroDivisionError: division by zero" ++ newline)
         report
    /\ PyStr.Contains common_issues report.
Proof.
  destruct (executor_reports_exceptions Sample.exec Sample.library Sample.value_error
              Sample.tables "result = 1 / 0" Sample.zero_division) as [Hreport _];
    [reflexivity |].
  apply Hreport; reflexivity.
Defined.

(** C2: when the snippet runs to its end and leaves no variable named
    [result] in the scope, the call returns the fixed message that asks
    for one, whatever else the snippet bound. *)
Theorem executor_requires_result
    (exec : interpreter) (library : string -> pyvalue)
    (value_error : ambiguity -> string * string) (data : TableBundle)
    (python_code : string) (local_env : gmap string pyvalue) :
  exec python_code (local_env_of library data) = Completed local_env ->
  local_env !! "result" = None ->
  execute_pandas_code_business exec library value_error (Loaded data) python_code
    = Returns "❌ Error: The code ran, but no variable named 'result' was defined. Please assign the final answer to 'result'.".
Proof.
  intros Hrun Hnone. unfold execute_pandas_code_business.
  now rewrite Hrun, Hnone.
Qed.

Lemma executor_requires_result_witness :
  Sample.run (Loaded Sample.tables) "total = revenue_df['amount'].sum()"
    = Returns no_result_message.
Proof.
  eapply (executor_requires_result Sample.exec Sample.library Sample.value_error
            Sample.tables
            "total = revenue_df['amount'].sum()").
  - vm_compute. reflexivity.
  - vm_compute. reflexivity.
Defined.

(** The default name of a series report does not read as money. *)
Lemma default_name_is_not_money : is_money_name "Value" = false.
Proof. reflexivity. Qed.

Lemma format_series_value_default (v : scalar) :
  format_series_value "Value" v =
    match v with
    | SFloat x => PyFloat.format_comma_2f x
    | SObj o => PyVal.str_obj o
    end.
Proof.
  destruct v as [x | o]; unfold format_series_value;
    [now rewrite default_name_is_not_money | reflexivity].
Qed.

Lemma format_series_output_default (series : Series) :
  format_series_output series "Value" =
    Report.series_header (length (series_items series))
      ++ PyStr.concat_all (map Report.plain_series_line (series_items series)).
Proof.
  unfold format_series_output, Report.series_header.
  rewrite (PyStrFacts.fold_left_append Report.plain_series_line).
  - now rewrite !PyStrFacts.append_assoc.
  - intros acc [idx v]. unfold Report.plain_series_line. cbn [fst snd].
    now rewrite format_series_value_default.
Qed.

(** C10: a [result] that is a series goes to [format_series_output]
    under the default name "Value"; every line of the report then shows
    a float with thousands separators and two decimals, and never with
    the currency sign in front. *)
Theorem series_result_is_never_currency
    (exec : interpreter) (library : string -> pyvalue)
    (value_error : ambiguity -> string * string) (data : TableBundle)
    (python_code : string) (local_env : gmap string pyvalue) (series : Series) :
  exec python_code (local_env_of library data) = Completed local_env ->
  local_env !! "result" = Some (VSeries series) ->
  execute_pandas_code_business exec library value_error (Loaded data) python_code
    = Returns (format_series_output series "Value")
  /\ format_series_output series "Value"
     = Report.series_header (length (series_items series))
         ++ PyStr.concat_all (map Report.plain_series_line (series_items series))
  /\ forall x : spec_float,
       format_series_value "Value" (SFloat x) = PyFloat.format_comma_2f x
       /\ format_series_value "Value" (SFloat x) <> "$" ++ PyFloat.format_comma_2f x.
Proof.
  intros Hrun Hres. split; [| split].
  - unfold execute_pandas_code_business. now rewrite Hrun, Hres.
  - apply format_series_output_default.
  - intros x. rewrite format_series_value_default. split; [reflexivity |].
    intros H. symmetry in H. revert H. now apply PyStrFacts.append_longer.
Qed.

Lemma series_result_is_never_currency_witness :
  Sample.run (Loaded Sample.tables) "result = revenue_df['amount']"
    = Returns ("📊 Analysis Results (3 items)" ++ newline ++ rule70 ++ newline ++ newline
               ++ "▸ 0: 100.00" ++ newline
               ++ "▸ 1: 200.00" ++ newline
               ++ "▸ 2: 300.50" ++ newline).
Proof.
  pose proof (series_result_is_never_currency Sample.exec Sample.library Sample.value_error
            Sample.tables
                "result = revenue_df['amount']"
                (<["result" := VSeries (mkSeries
                     [(IdxInt 0, SFloat (PyFloat.of_Z 100));
                      (IdxInt 1, SFloat (PyFloat.of_Z 200));
                      (IdxInt 2, SFloat (PyFloat.of_dyadic 601 (-1)))])]>
                   (local_env_of Sample.library Sample.tables))
                (mkSeries
                   [(IdxInt 0, SFloat (PyFloat.of_Z 100));
                    (IdxInt 1, SFloat (PyFloat.of_Z 200));
                    (IdxInt 2, SFloat (PyFloat.of_dyadic 601 (-1)))])) as H.
  destruct H as [Hcall _]; [vm_compute; reflexivity | vm_compute; reflexivity |].
  unfold Sample.run. rewrite Hcall. vm_compute. reflexivity.
Defined.

(** C6, as the specification states it, fails on an integer: the count
    1234 is shown with a thousands separator and without the currency
    sign or decimals. *)
Lemma integer_scalar_is_not_currency :
  format_scalar_output (SObj (OInt 1234)) "Result"
    = Report.scalar_header "Result" ++ "▸ 1,234" ++ newline
  /\ PyStr.contains "$" (format_scalar_output (SObj (OInt 1234)) "Result") = false
  /\ Sample.run (Loaded Sample.tables) "result = len(orders_df)"
     = Returns (Report.scalar_header "Result" ++ "▸ 3" ++ newline).
Proof. split; [| split]; vm_compute; reflexivity. Qed.

Lemma format_scalar_output_unfold (v : scalar) (description : string) :
  format_scalar_output v description
    = Report.scalar_header description ++ "▸ " ++ format_scalar_value v ++ newline.
Proof.
  unfold format_scalar_output, Report.scalar_header.
  now rewrite !PyStrFacts.append_assoc.
Qed.

(** C6 (amended): after the heading, [format_scalar_output] shows a
    float as a currency amount with thousands separators and two
    decimals, a Python integer (a [bool] counting as 0 or 1) with
    thousands separators only, and any other value as its text; the sum
    of the amounts 100.0, 200.0 and 300.50 is reported as $600.50. *)
Theorem format_scalar_output_by_type (description : string) :
  (forall x : spec_float,
     format_scalar_output (SFloat x) description
       = Report.scalar_header description
           ++ "▸ " ++ ("$" ++ PyFloat.format_comma_2f x) ++ newline)
  /\ (forall z : Z,
        format_scalar_output (SObj (OInt z)) description
          = Report.scalar_header description
              ++ "▸ " ++ PyStr.format_int_comma z ++ newline)
  /\ (forall b : bool,
        format_scalar_output (SObj (OBool b)) description
          = Report.scalar_header description
              ++ "▸ " ++ (if b then "1" else "0") ++ newline)
  /\ (forall o : obj,
        Report.is_python_int o = false ->
        format_scalar_output (SObj o) description
          = Report.scalar_header description ++ "▸ " ++ PyVal.str_obj o ++ newline)
  /\ Sample.run (Loaded Sample.tables) "result = revenue_df['amount'].sum()"
     = Returns (Report.scalar_header "Result" ++ "▸ " ++ "$600.50" ++ newline).
Proof.
  split; [| split; [| split; [| split]]].
  - intros x. apply format_scalar_output_unfold.
  - intros z. apply format_scalar_output_unfold.
  - intros b. rewrite format_scalar_output_unfold. now destruct b.
  - intros o Ho. rewrite format_scalar_output_unfold.
    destruct o; try discriminate Ho; reflexivity.
  - vm_compute. reflexivity.
Qed.

Lemma format_scalar_output_by_type_witness :
  format_scalar_output (SObj (ONpInteger 1234)) "Result"
    = Report.scalar_header "Result" ++ "▸ " ++ "1234" ++ newline.
Proof.
  destruct (format_scalar_output_by_type "Result") as (_ & _ & _ & Hother & _).
  apply (Hother (ONpInteger 1234)). reflexivity.
Defined.

(* ================================================================== *)
(** * 14. The customer tool *)
(* ================================================================== *)

Lemma filter_nil_of_none {A : Type} (f : A -> bool) (l : list A) :
  (forall x, In x l -> f x = false) -> List.filter f l = [].
Proof.
  induction l as [|x l IH]; intros H; [reflexivity |].
  simpl. rewrite (H x (or_introl eq_refl)). apply IH.
  intros y Hy. apply H. now right.
Qed.

Lemma filter_cons_of_some {A : Type} (f : A -> bool) (l : list A) (x : A) :
  In x l -> f x = true -> exists y rest, List.filter f l = y :: rest.
Proof.
  intros Hin Hx. destruct (List.filter f l) as [|y rest] eqn:E; [| now exists y, rest].
  assert (Hf : In x (List.filter f l)) by (apply filter_In; now split).
  rewrite E in Hf. destruct Hf.
Qed.

(** Every order gives at least one row of the left join. *)
Lemma merge_products_nonempty (o : Order) (orders : list Order) (products : list Product) :
  exists row rows, merge_products (o :: orders) products = row :: rows.
Proof.
  unfold merge_products. cbn [flat_map].
  destruct (List.filter _ products) as [|p ps]; cbn [map app]; eauto.
Qed.

(** C9: when the trimmed, upper-cased identifier is the id of no
    customer, the lookup returns the not-found report, and the report
    contains the normalized identifier.  The trimming and the
    upper-casing are those of the runtime, whatever they do. *)
Theorem unknown_customer_is_reported
    (py : StrMethods) (data : TableBundle) (now : Timestamp) (customer_id : string) :
  (forall c, In c (customers_df data) ->
             c_customer_id c <> str_upper py (str_strip py customer_id)) ->
  get_customer_orders py (Loaded data) now customer_id
    = "ERROR: Customer ID '" ++ str_upper py (str_strip py customer_id)
        ++ "' not found in the system."
  /\ PyStr.Contains (str_upper py (str_strip py customer_id))
       (get_customer_orders py (Loaded data) now customer_id).
Proof.
  intros Hnone.
  assert (E : get_customer_orders py (Loaded data) now customer_id
              = "ERROR: Customer ID '" ++ str_upper py (str_strip py customer_id)
                  ++ "' not found in the system.").
  { unfold get_customer_orders. rewrite filter_nil_of_none; [reflexivity |].
    intros c Hc. apply String.eqb_neq. now apply Hnone. }
  split; [exact E |]. rewrite E. apply PyStrFacts.Contains_here.
Qed.

Lemma unknown_customer_is_reported_witness :
  get_customer_orders ascii_methods (Loaded Sample.tables) Sample.now " cust_004 "
    = "ERROR: Customer ID 'CUST_004' not found in the system."
  /\ PyStr.Contains "CUST_004"
       (get_customer_orders ascii_methods (Loaded Sample.tables) Sample.now " cust_004 ").
Proof.
  apply (unknown_customer_is_reported ascii_methods Sample.tables Sample.now " cust_004 ").
  intros c Hc. vm_compute in Hc.
  destruct Hc as [<- | [<- | [<- | []]]]; vm_compute; discriminate.
Defined.

Lemma literal_append_nonempty (c : ascii) (s t : string) : String c s ++ t <> "".
Proof. rewrite PyStrFacts.append_cons. discriminate. Qed.

Lemma delay_flag_nonempty (days_late : Z) : Report.delay_flag days_late <> "".
Proof. unfold Report.delay_flag. apply literal_append_nonempty. Qed.

(** One turn of the loop adds the lines of the order, the flag if there
    is one, and the closing rule. *)
Lemma format_order_unfold (now : Timestamp) (result : string) (row : OrderRow) :
  format_order now result row
    = result ++ Report.order_lines row ++ Lookup.flag_of now (row_order row)
        ++ Report.block_end.
Proof.
  unfold format_order, Report.order_lines, Lookup.flag_of, Report.block_end,
    Report.delay_flag.
  destruct (o_est_delivery (row_order row)) as [est|].
  - destruct (negb (String.eqb (o_status (row_order row)) "Delivered") && PyDate.gt now est);
      now rewrite !PyStrFacts.append_assoc.
  - now rewrite !PyStrFacts.append_assoc.
Qed.

Lemma order_block_unfold (now : Timestamp) (row : OrderRow) :
  Lookup.order_block now row
    = Report.order_lines row ++ Lookup.flag_of now (row_order row) ++ Report.block_end.
Proof. unfold Lookup.order_block. now rewrite format_order_unfold. Qed.

(** The test of the loop decides lateness. *)
Lemma late_test (now : Timestamp) (o : Order) (est : Timestamp) :
  o_est_delivery o = Some est ->
  negb (String.eqb (o_status o) "Delivered") && PyDate.gt now est = true
  <-> Report.late now o.
Proof.
  intros Hest. unfold Report.late, PyDate.gt.
  rewrite andb_true_iff, negb_true_iff, String.eqb_neq, Z.ltb_lt. split.
  - intros [Hs Hlt]. split; [exact Hs |]. now exists est.
  - intros [Hs [est' [Hest' Hlt]]]. rewrite Hest in Hest'.
    injection Hest' as <-. now split.
Qed.

(** The block of a row carries the delay flag exactly when the order is
    late. *)
Lemma flag_iff_late (now : Timestamp) (row : OrderRow) :
  Report.carries_delay_flag (Lookup.order_block now row) row
  <-> Report.late now (row_order row).
Proof.
  unfold Report.carries_delay_flag. rewrite order_block_unfold.
  unfold Lookup.flag_of.
  destruct (o_est_delivery (row_order row)) as [est|] eqn:Hest.
  - destruct (negb (String.eqb (o_status (row_order row)) "Delivered") && PyDate.gt now est)
      eqn:Htest.
    + split.
      * intros _. now apply (late_test now _ est Hest).
      * intros _. now exists (PyDate.sub_days now est).
    + split.
      * intros [d Hd]. apply PyStrFacts.append_cancel_l in Hd.
        rewrite PyStrFacts.append_nil_l in Hd. symmetry in Hd.
        now apply PyStrFacts.append_longer in Hd; [| apply delay_flag_nonempty].
      * intros Hlate. apply (late_test now _ est Hest) in Hlate. congruence.
  - split.
    + intros [d Hd]. apply PyStrFacts.append_cancel_l in Hd.
      rewrite PyStrFacts.append_nil_l in Hd. symmetry in Hd.
      now apply PyStrFacts.append_longer in Hd; [| apply delay_flag_nonempty].
    + intros [_ [est [Hsome _]]]. congruence.
Qed.

(** The report as the code builds it: for a customer id whose normal
    form is the id of a customer with at least one order, the report is
    the heading followed by one block per row of the orders-products
    join, in the order of the join; and the block of a row carries the
    delay flag if and only if the status of the order is not Delivered,
    its estimated delivery is known, and the instant [now] is strictly
    after it. *)
Lemma customer_report_lists_every_order
    (py : StrMethods) (data : TableBundle) (now : Timestamp) (customer_id : string) :
  (exists c, In c (customers_df data)
             /\ c_customer_id c = Lookup.normalize py customer_id) ->
  (exists o, In o (orders_df data)
             /\ o_customer_id o = Lookup.normalize py customer_id) ->
  exists first : Customer,
    In first (customers_df data)
    /\ c_customer_id first = Lookup.normalize py customer_id
    /\ get_customer_orders py (Loaded data) now customer_id
       = Report.customer_header first (Lookup.normalize py customer_id)
           (length (Lookup.join_rows data (Lookup.normalize py customer_id)))
         ++ PyStr.concat_all
              (map (Lookup.order_block now)
                   (Lookup.join_rows data (Lookup.normalize py customer_id)))
    /\ Forall
         (fun row =>
            Report.carries_delay_flag (Lookup.order_block now row) row
            <-> Report.late now (row_order row))
         (Lookup.join_rows data (Lookup.normalize py customer_id)).
Proof.
  intros [c [Hc Hcid]] [o [Ho Hoid]].
  set (clean_id := Lookup.normalize py customer_id) in *.
  destruct (filter_cons_of_some
              (fun c => String.eqb (c_customer_id c) clean_id) (customers_df data) c Hc)
    as [first [others Hfirst]]; [now apply String.eqb_eq |].
  destruct (filter_cons_of_some
              (fun o => String.eqb (o_customer_id o) clean_id) (orders_df data) o Ho)
    as [o1 [os Hos]]; [now apply String.eqb_eq |].
  assert (Hin : In first (List.filter (fun c => String.eqb (c_customer_id c) clean_id)
                            (customers_df data))) by (rewrite Hfirst; now left).
  apply filter_In in Hin. destruct Hin as [Hin Hid]. apply String.eqb_eq in Hid.
  exists first. split; [exact Hin |]. split; [exact Hid |]. split.
  - unfold get_customer_orders. fold (Lookup.normalize py customer_id). fold clean_id.
    rewrite Hfirst. fold (Lookup.join_rows data clean_id).
    assert (Hrows : exists row rows, Lookup.join_rows data clean_id = row :: rows).
    { unfold Lookup.join_rows. rewrite Hos. apply merge_products_nonempty. }
    destruct Hrows as [row [rows Hrows]]. rewrite Hrows.
    rewrite (PyStrFacts.fold_left_append (Lookup.order_block now)).
    + unfold Report.customer_header. now rewrite !PyStrFacts.append_assoc.
    + intros acc r. rewrite format_order_unfold, order_block_unfold. reflexivity.
  - apply Forall_forall. intros row _. apply flag_iff_late.
Qed.

Lemma customer_report_lists_every_order_witness :
  exists first : Customer,
    In first Sample.customers
    /\ c_customer_id first = "CUST_001"
    /\ get_customer_orders ascii_methods (Loaded Sample.tables) Sample.now " cust_001 "
       = Report.customer_header first "CUST_001" 2
         ++ PyStr.concat_all
              (map (Lookup.order_block Sample.now)
                   (Lookup.join_rows Sample.tables "CUST_001"))
    /\ Forall
         (fun row =>
            Report.carries_delay_flag (Lookup.order_block Sample.now row) row
            <-> Report.late Sample.now (row_order row))
         (Lookup.join_rows Sample.tables "CUST_001").
Proof.
  apply (customer_report_lists_every_order ascii_methods Sample.tables Sample.now
           " cust_001 ").
  - exists (mkCustomer "CUST_001" "Asha Rao" "asha@example.com" "South").
    split; [left; reflexivity | reflexivity].
  - exists (mkOrder "ORD_100" "CUST_001" "PROD_01" "Delivered"
              (PyDate.date 2024 3 1) (Some (PyDate.date 2024 3 5))).
    split; [left; reflexivity | reflexivity].
Defined.

(** The scenario of the specification: of the two orders of CUST_001,
    both due in the past, the shipped one is flagged and the delivered
    one is not. *)
Example shipped_is_flagged_delivered_is_not :
  map (fun row => (o_order_id (row_order row), o_status (row_order row),
                   Lookup.flag_of Sample.now (row_order row)))
      (Lookup.join_rows Sample.tables "CUST_001")
  = [ ("ORD_100", "Delivered", "");
      ("ORD_101", "Shipped", Report.delay_flag 12) ].
Proof. vm_compute. reflexivity. Qed.

(** The comparison of the lookup is on the instant: an order due at
    midnight of the current day is flagged during that day, with zero
    days overdue, while the delay scan of the audit compares with
    midnight and does not count it. *)
Example due_today_is_flagged_by_the_lookup_only :
  let o := mkOrder "ORD_200" "CUST_001" "PROD_01" "Pending"
             (PyDate.date 2024 3 15) (Some (PyDate.date 2024 3 20)) in
  Lookup.flag_of Sample.now o = Report.delay_flag 0
  /\ critically_delayed (PyDate.today_of Sample.now) o = false.
Proof. split; vm_compute; reflexivity. Qed.

(** C3: the delay flag on the day an order is due.  The pending order
    ORD_200 is due on 2024-03-20 and the clock reads 10:30 on that day:
    the current date is not after the estimated delivery, yet the block
    of the order carries the flag, with zero days overdue.  The lookup
    compares the instant [datetime.now()] with the delivery date, where
    the delay scan and the status check compare the date, midnight of
    the day: on the same tables they report no delay. *)
Theorem order_due_today_is_flagged_delayed :
  PyDate.strftime_ymd Sample.now = "2024-03-20"
  /\ map PyDate.strftime_ymd (option_list (o_est_delivery Sample.due_today_order))
     = ["2024-03-20"]
  /\ get_customer_orders ascii_methods (Loaded Sample.due_today) Sample.now "CUST_001"
     = Report.customer_header
         (mkCustomer "CUST_001" "Asha Rao" "asha@example.com" "South") "CUST_001" 1
       ++ Report.order_lines
            (mkOrderRow Sample.due_today_order
               (Some (mkProduct "PROD_01" "Laptop" "Electronics"
                        (PyFloat.of_dyadic 2399 (-1)) 50)))
       ++ "  ⚠️ DELAYED: 0 day(s) overdue" ++ newline
       ++ Report.block_end
  /\ check_for_critical_delays (Loaded Sample.due_today) Sample.now
     = "SUCCESS: No critical delivery delays found."
  /\ si_message
       (check_customer_order_status ascii_methods (Loaded Sample.due_today) Sample.now
          "CUST_001")
     = "✅ All 1 active order is on track!".
Proof. repeat (split; [vm_compute; reflexivity |]). vm_compute. reflexivity. Qed.

(** The calendar conversion on a leap day and around the epoch. *)
Example strftime_samples :
  map PyDate.strftime_ymd
    [PyDate.date 2024 2 29; PyDate.date 1970 1 1; PyDate.date 1969 12 31;
     PyDate.datetime 2000 12 31 23 59 59]
  = ["2024-02-29"; "1970-01-01"; "1969-12-31"; "2000-12-31"].
Proof. vm_compute. reflexivity. Qed.

(* ================================================================== *)
(** * 15. The audit checks *)
(* ================================================================== *)

(** C8: with fewer than five revenue rows the anomaly check returns the
    fixed not-enough-data line, whatever the rows hold and whatever the
    detector would answer; the line does not contain the keyword
    CRITICAL, so the dashboard reads it as normal. *)
Theorem few_revenue_rows_are_not_scanned
    (isolation_forest : predictor) (data : TableBundle) :
  (length (revenue_df data) < 5)%nat ->
  check_for_revenue_anomalies isolation_forest (Loaded data)
    = "Not enough data points to run anomaly detection."
  /\ PyStr.contains "CRITICAL"
       (check_for_revenue_anomalies isolation_forest (Loaded data)) = false.
Proof.
  intros Hfew.
  assert (E : check_for_revenue_anomalies isolation_forest (Loaded data)
              = "Not enough data points to run anomaly detection.").
  { unfold check_for_revenue_anomalies.
    destruct (length (revenue_df data) <? 5)%nat eqn:Hlt; [reflexivity |].
    apply Nat.ltb_ge in Hlt. lia. }
  split; [exact E |]. rewrite E. reflexivity.
Qed.

Lemma few_revenue_rows_are_not_scanned_witness :
  check_for_revenue_anomalies (map (fun _ => -1)) (Loaded Sample.tables)
    = "Not enough data points to run anomaly detection."
  /\ PyStr.contains "CRITICAL"
       (check_for_revenue_anomalies (map (fun _ => -1)) (Loaded Sample.tables)) = false.
Proof.
  apply (few_revenue_rows_are_not_scanned (map (fun _ => -1)) Sample.tables).
  simpl. lia.
Defined.

(** The mask of the delay scan decides the condition of the
    specification. *)
Lemma critically_delayed_spec (today : Timestamp) (o : Order) :
  critically_delayed today o = true <-> Report.overdue today o.
Proof.
  unfold critically_delayed, Report.overdue, PyDate.lt.
  rewrite !andb_true_iff, !negb_true_iff, !String.eqb_neq.
  destruct (o_est_delivery o) as [est|].
  - rewrite Z.ltb_lt. split.
    + intros [[[Hlt Hd] Hc] _]. repeat split; try assumption. now exists est.
    + intros [[est' [Hest Hlt]] [Hd Hc]]. injection Hest as <-. now repeat split.
  - split.
    + intros [[[Hlt _] _] _]. discriminate Hlt.
    + intros [[est' [Hest _]] _]. discriminate Hest.
Qed.

Lemma filter_nonempty_iff {A : Type} (f : A -> bool) (l : list A) :
  List.filter f l <> [] <-> exists x, In x l /\ f x = true.
Proof.
  split.
  - intros Hne. destruct (List.filter f l) as [|x rest] eqn:E; [congruence |].
    exists x. apply filter_In. rewrite E. now left.
  - intros [x Hx] E. apply filter_In in Hx. rewrite E in Hx. destruct Hx.
Qed.

(** Midnight of the day of [now] is [PyDate.today_of now]. *)
Lemma midnight_is_today (now today : Timestamp) :
  Report.midnight_of now today -> today = PyDate.today_of now.
Proof.
  intros [Hmod [Hle Hlt]]. destruct today as [t], now as [n]. cbn [value] in *.
  unfold PyDate.today_of, PyDate.day_of, PyDate.ns_per_day. cbn [value]. f_equal.
  change (86400 * 1000000000) with 86400000000000.
  apply Z.mod_divide in Hmod; [| lia]. destruct Hmod as [k ->].
  rewrite (Z.div_unique n 86400000000000 k (n - k * 86400000000000)) at 1; lia.
Qed.

Lemma customer_names_of_spec (customers : list Customer) (o : Order) :
  match List.filter (fun c => String.eqb (c_customer_id c) (o_customer_id o)) customers with
  | [] => ["nan"]
  | cs => map c_name cs
  end = Report.customer_names_of customers o.
Proof.
  unfold Report.customer_names_of.
  assert (E : map c_name
                (List.filter (fun c => String.eqb (c_customer_id c) (o_customer_id o))
                   customers)
              = omap (fun c => if String.eqb (c_customer_id c) (o_customer_id o)
                               then Some (c_name c) else None) customers).
  { induction customers as [|c cs IH]; [reflexivity |]. cbn.
    destruct (String.eqb (c_customer_id c) (o_customer_id o)); cbn;
      now rewrite <- IH. }
  rewrite <- E.
  now destruct (List.filter _ customers).
Qed.

Lemma merge_customer_names_spec (orders : list Order) (customers : list Customer) :
  merge_customer_names orders customers = Report.affected_customers customers orders.
Proof.
  unfold merge_customer_names, Report.affected_customers.
  induction orders as [|o os IH]; [reflexivity |].
  cbn [flat_map map concat]. f_equal; [apply customer_names_of_spec | exact IH].
Qed.

(** C7: the delay check returns a report that starts with ALERT if and
    only if some order has a known estimated delivery strictly before
    today, midnight of the current day, and a status that is neither
    Delivered nor Cancelled.  The report is then the alert line for the
    matching orders, taken in table order by any test that tells them:
    their number, the ids of the first three of them and the first
    three of their customer names.  Otherwise the check returns the
    SUCCESS line. *)
Theorem delay_check_alerts_iff_overdue
    (data : TableBundle) (now today : Timestamp) (matches : Order -> bool) :
  Report.midnight_of now today ->
  (forall o, matches o = true <-> Report.overdue today o) ->
  (String.prefix "ALERT" (check_for_critical_delays (Loaded data) now) = true
   <-> exists o, In o (orders_df data) /\ Report.overdue today o)
  /\ ((exists o, In o (orders_df data) /\ Report.overdue today o) ->
      check_for_critical_delays (Loaded data) now
        = Report.alert (customers_df data) (List.filter matches (orders_df data)))
  /\ (~ (exists o, In o (orders_df data) /\ Report.overdue today o) ->
      check_for_critical_delays (Loaded data) now
        = "SUCCESS: No critical delivery delays found.").
Proof.
  intros Hmidnight Hmatches. apply midnight_is_today in Hmidnight. subst today.
  set (today := PyDate.today_of now) in *.
  assert (Hsame : List.filter matches (orders_df data)
                  = List.filter (critically_delayed today) (orders_df data)).
  { apply List.filter_ext. intros o.
    destruct (matches o) eqn:Hm, (critically_delayed today o) eqn:Hc; try reflexivity.
    - apply Hmatches, critically_delayed_spec in Hm. congruence.
    - apply critically_delayed_spec, Hmatches in Hc. congruence. }
  rewrite Hsame.
  set (delayed := List.filter (critically_delayed today) (orders_df data)).
  assert (Hsome : (exists o, In o (orders_df data) /\ Report.overdue today o)
                  <-> delayed <> []).
  { unfold delayed. rewrite filter_nonempty_iff.
    split; intros [o [Hin Ho]]; exists o; (split; [exact Hin |]);
      now apply critically_delayed_spec. }
  assert (Halert : delayed <> [] ->
            check_for_critical_delays (Loaded data) now
            = Report.alert (customers_df data) delayed).
  { intros Hne. unfold check_for_critical_delays, Report.alert.
    fold today. fold delayed. rewrite <- merge_customer_names_spec.
    destruct delayed as [|o os]; [congruence | reflexivity]. }
  assert (Hclean : delayed = [] ->
            check_for_critical_delays (Loaded data) now
            = "SUCCESS: No critical delivery delays found.").
  { intros Hnil. unfold check_for_critical_delays. fold today. fold delayed.
    now rewrite Hnil. }
  split; [| split].
  - rewrite Hsome. split.
    + intros Hprefix Hnil. rewrite (Hclean Hnil) in Hprefix. discriminate Hprefix.
    + intros Hne. rewrite (Halert Hne). apply PyStrFacts.prefix_spec.
      unfold Report.alert. eexists. reflexivity.
  - intros Hex. apply Hsome in Hex. now apply Halert.
  - intros Hno. apply Hclean.
    destruct delayed as [|o os] eqn:E; [reflexivity |].
    exfalso. apply Hno. apply Hsome. discriminate.
Qed.

Lemma delay_check_alerts_iff_overdue_witness :
  check_for_critical_delays (Loaded Sample.tables) Sample.now
  = "ALERT: 1 orders are critically delayed!" ++ newline
      ++ "Affected Orders: ORD_101" ++ newline
      ++ "Affected Customers: Asha Rao".
Proof.
  destruct (delay_check_alerts_iff_overdue Sample.tables Sample.now
              (PyDate.date 2024 3 20) (critically_delayed (PyDate.date 2024 3 20)))
    as (_ & Halert & _).
  - split; [reflexivity | split; vm_compute; [discriminate | reflexivity]].
  - intros o. apply critically_delayed_spec.
  - rewrite Halert; [vm_compute; reflexivity |].
    exists (mkOrder "ORD_101" "CUST_001" "PROD_02" "Shipped"
              (PyDate.date 2024 3 2) (Some (PyDate.date 2024 3 8))).
    split; [right; left; reflexivity |].
    apply critically_delayed_spec. vm_compute. reflexivity.
Defined.

(* ================================================================== *)
(** * 16. The table formatter *)
(* ================================================================== *)












(** A float that is NaN takes the float branch of the chain, before the
    test for absent values: it is shown as nan, with the currency sign in
    a money column. *)
Lemma nan_cell_takes_the_float_branch :
  format_cell "amount" (CVal (SFloat S754_nan)) = "$nan"
  /\ format_cell "rating" (CVal (SFloat S754_nan)) = "nan"
  /\ PyVal.isna (SFloat S754_nan) = true.
Proof. split; [| split]; vm_compute; reflexivity. Qed.

(** A cell that holds a list: with one element the test for absent
    values has a truth value and the list is shown as its text; with
    two it has none and the formatter raises. *)
Example list_cell_needs_one_element :
  format_entry ["tags"] "tags" (Many false [] "['new']") = Formatted "['new']"
  /\ format_entry ["tags"] "tags" (Many true [] "[nan]") = Formatted "N/A"
  /\ format_entry ["tags"] "tags" (Many false [false] "['new', 'eu']")
     = Ambiguous ArrayTruth.
Proof. split; [| split]; reflexivity. Qed.




(* ================================================================== *)
(** * 17. The login-time status check *)
(* ================================================================== *)

(** The three outcomes of the status check on loaded tables. *)
Lemma status_check_cases
    (py : StrMethods) (data : TableBundle) (now : Timestamp) (customer_id : string) :
  (Status.orders_of data (Lookup.normalize py customer_id) = []
   /\ check_customer_order_status py (Loaded data) now customer_id
      = mkStatusInfo "normal" "You have no active orders" None)
  \/ (Status.delayed_of data now (Lookup.normalize py customer_id) <> []
      /\ check_customer_order_status py (Loaded data) now customer_id
         = mkStatusInfo "delayed"
             ("⚠️ You have "
                ++ PyStr.of_nat
                     (length (Status.delayed_of data now (Lookup.normalize py customer_id)))
                ++ " delayed order"
                ++ (if (1 <? length (Status.delayed_of data now
                                       (Lookup.normalize py customer_id)))%nat
                    then "s" else "")
                ++ "!")
             (Some (length (Status.delayed_of data now (Lookup.normalize py customer_id)))))
  \/ (Status.orders_of data (Lookup.normalize py customer_id) <> []
      /\ Status.delayed_of data now (Lookup.normalize py customer_id) = []
      /\ si_status (check_customer_order_status py (Loaded data) now customer_id) = "normal").
Proof.
  unfold check_customer_order_status, Status.delayed_of.
  fold (Lookup.normalize py customer_id).
  fold (Status.orders_of data (Lookup.normalize py customer_id)).
  destruct (Status.orders_of data (Lookup.normalize py customer_id)) as [|o os] eqn:Hco.
  - left. split; reflexivity.
  - right.
    destruct (List.filter (critically_delayed (PyDate.today_of now)) (o :: os))
      as [|d ds] eqn:Hdel.
    + right. split; [discriminate |]. split; [reflexivity |].
      destruct (0 <? length (List.filter is_active_status (o :: os)))%nat; reflexivity.
    + left. split; [discriminate | reflexivity].
Qed.

Lemma In_orders_of (data : TableBundle) (clean_id : string) (o : Order) :
  In o (Status.orders_of data clean_id)
  <-> In o (orders_df data) /\ o_customer_id o = clean_id.
Proof.
  unfold Status.orders_of. rewrite filter_In, String.eqb_eq. reflexivity.
Qed.

Lemma In_delayed_of (data : TableBundle) (now : Timestamp) (clean_id : string) (o : Order) :
  In o (Status.delayed_of data now clean_id)
  <-> In o (orders_df data) /\ o_customer_id o = clean_id
      /\ Report.overdue (PyDate.today_of now) o.
Proof.
  unfold Status.delayed_of.
  rewrite filter_In, In_orders_of, critically_delayed_spec. tauto.
Qed.

Lemma nonempty_has_member {A : Type} (l : list A) : l <> [] <-> exists x, In x l.
Proof.
  destruct l as [|x l]; split.
  - congruence.
  - intros [x []].
  - intros _. exists x. now left.
  - discriminate.
Qed.

(** X1: on loaded tables the status check answers "delayed" exactly
    when the customer has an order with a known estimated delivery
    before today and a status other than Delivered and Cancelled; the
    count it returns is then the number of those orders, at least one;
    in every other case the status is "normal". *)
Theorem status_check_delayed_iff_overdue
    (py : StrMethods) (data : TableBundle) (now : Timestamp) (customer_id : string) :
  (si_status (check_customer_order_status py (Loaded data) now customer_id) = "delayed"
   <-> exists o, In o (orders_df data)
                 /\ o_customer_id o = Lookup.normalize py customer_id
                 /\ Report.overdue (PyDate.today_of now) o)
  /\ (si_status (check_customer_order_status py (Loaded data) now customer_id) = "delayed"
      -> si_count (check_customer_order_status py (Loaded data) now customer_id)
           = Some (length (Status.delayed_of data now (Lookup.normalize py customer_id)))
         /\ (1 <= length (Status.delayed_of data now (Lookup.normalize py customer_id)))%nat)
  /\ (si_status (check_customer_order_status py (Loaded data) now customer_id) <> "delayed"
      -> si_status (check_customer_order_status py (Loaded data) now customer_id) = "normal").
Proof.
  assert (Hex : (exists o, In o (orders_df data)
                           /\ o_customer_id o = Lookup.normalize py customer_id
                           /\ Report.overdue (PyDate.today_of now) o)
                <-> Status.delayed_of data now (Lookup.normalize py customer_id) <> []).
  { rewrite nonempty_has_member.
    split; intros [o Ho]; exists o; now apply In_delayed_of. }
  destruct (status_check_cases py data now customer_id)
    as [[Hnone ->] | [[Hdel ->] | (Hsome & Hdel & Hnormal)]].
  - assert (Hnodel : Status.delayed_of data now (Lookup.normalize py customer_id) = []).
    { unfold Status.delayed_of. now rewrite Hnone. }
    cbn [si_status si_count]. split; [| split].
    + rewrite Hex, Hnodel. split; [discriminate | congruence].
    + discriminate.
    + reflexivity.
  - cbn [si_status si_count]. split; [| split].
    + rewrite Hex. tauto.
    + intros _. split; [reflexivity |].
      destruct (Status.delayed_of data now (Lookup.normalize py customer_id));
        [congruence | simpl; lia].
    + congruence.
  - rewrite Hnormal. split; [| split].
    + rewrite Hex, Hdel. split; [discriminate | congruence].
    + discriminate.
    + reflexivity.
Qed.

Lemma status_check_delayed_iff_overdue_witness :
  si_status
    (check_customer_order_status ascii_methods (Loaded Sample.tables) Sample.now
       " cust_001 ")
    = "delayed".
Proof.
  apply (status_check_delayed_iff_overdue ascii_methods Sample.tables Sample.now " cust_001 ").
  exists Scenario.shipped_order.
  split; [right; left; reflexivity |]. split; [reflexivity |].
  apply critically_delayed_spec. vm_compute. reflexivity.
Defined.

(** The two outcomes of the delay audit on loaded tables. *)
Lemma delay_check_cases (data : TableBundle) (now : Timestamp) :
  (List.filter (critically_delayed (PyDate.today_of now)) (orders_df data) = []
   /\ check_for_critical_delays (Loaded data) now
      = "SUCCESS: No critical delivery delays found.")
  \/ (List.filter (critically_delayed (PyDate.today_of now)) (orders_df data) <> []
      /\ String.prefix "ALERT" (check_for_critical_delays (Loaded data) now) = true).
Proof.
  unfold check_for_critical_delays.
  destruct (List.filter (critically_delayed (PyDate.today_of now)) (orders_df data))
    as [|o os].
  - left. split; reflexivity.
  - right. split; [discriminate |].
    apply PyStrFacts.prefix_spec. eexists.
    change "ALERT: " with ("ALERT" ++ ": ").
    rewrite PyStrFacts.append_assoc. reflexivity.
Qed.

(** The audit alerts exactly when the scan selects some order. *)
Lemma delay_check_alert_iff (data : TableBundle) (now : Timestamp) :
  String.prefix "ALERT" (check_for_critical_delays (Loaded data) now) = true
  <-> exists o, In o (orders_df data) /\ critically_delayed (PyDate.today_of now) o = true.
Proof.
  rewrite <- filter_nonempty_iff.
  destruct (delay_check_cases data now) as [[Hnil Hout] | [Hne Hout]].
  - rewrite Hout, Hnil. split; [discriminate | congruence].
  - rewrite Hout. tauto.
Qed.

(** X2: the audit and the status check agree.  When some customer is
    told of a delay, the audit alerts; so after a SUCCESS line of the
    audit no customer is told of a delay.  When the customer ids of the
    order table are in normal form (trimmed, upper case), an alert of
    the audit means that some customer is told of a delay. *)
Theorem audit_agrees_with_status_check (py : StrMethods) (data : TableBundle) (now : Timestamp) :
  (forall customer_id : string,
     si_status (check_customer_order_status py (Loaded data) now customer_id) = "delayed" ->
     String.prefix "ALERT" (check_for_critical_delays (Loaded data) now) = true)
  /\ (check_for_critical_delays (Loaded data) now
        = "SUCCESS: No critical delivery delays found." ->
      forall customer_id : string,
        si_status (check_customer_order_status py (Loaded data) now customer_id)
          <> "delayed")
  /\ ((forall o, In o (orders_df data) ->
                 Lookup.normalize py (o_customer_id o) = o_customer_id o) ->
      String.prefix "ALERT" (check_for_critical_delays (Loaded data) now) = true ->
      exists customer_id : string,
        si_status (check_customer_order_status py (Loaded data) now customer_id) = "delayed").
Proof.
  assert (Hfirst : forall customer_id : string,
            si_status (check_customer_order_status py (Loaded data) now customer_id)
              = "delayed" ->
            String.prefix "ALERT" (check_for_critical_delays (Loaded data) now) = true).
  { intros customer_id Hdel.
    destruct (status_check_cases py data now customer_id)
      as [[_ E] | [[Hne _] | (_ & _ & Hnormal)]].
    - rewrite E in Hdel. discriminate Hdel.
    - apply delay_check_alert_iff. apply nonempty_has_member in Hne.
      destruct Hne as [o Ho]. apply In_delayed_of in Ho.
      destruct Ho as (Hin & _ & Hover). exists o. split; [exact Hin |].
      now apply critically_delayed_spec.
    - rewrite Hnormal in Hdel. discriminate Hdel. }
  split; [exact Hfirst |]. split.
  - intros Hok customer_id Hdel. apply Hfirst in Hdel.
    rewrite Hok in Hdel. discriminate Hdel.
  - intros Hnorm Halert. apply delay_check_alert_iff in Halert.
    destruct Halert as [o [Hin Ho]]. exists (o_customer_id o).
    destruct (status_check_cases py data now (o_customer_id o))
      as [[Hnone _] | [[_ E] | (_ & Hnodel & _)]].
    + exfalso. assert (Hmem : In o (Status.orders_of data (Lookup.normalize py (o_customer_id o)))).
      { apply In_orders_of. split; [exact Hin |]. symmetry. now apply Hnorm. }
      rewrite Hnone in Hmem. destruct Hmem.
    + rewrite E. reflexivity.
    + exfalso.
      assert (Hmem : In o (Status.delayed_of data now (Lookup.normalize py (o_customer_id o)))).
      { apply In_delayed_of. split; [exact Hin |].
        split; [symmetry; now apply Hnorm | now apply critically_delayed_spec]. }
      rewrite Hnodel in Hmem. destruct Hmem.
Qed.

Lemma audit_agrees_with_status_check_witness :
  exists customer_id : string,
    si_status
      (check_customer_order_status ascii_methods (Loaded Sample.tables) Sample.now
         customer_id)
      = "delayed".
Proof.
  apply (audit_agrees_with_status_check ascii_methods Sample.tables Sample.now).
  - intros o Ho. vm_compute in Ho.
    destruct Ho as [<- | [<- | [<- | []]]]; vm_compute; reflexivity.
  - vm_compute. reflexivity.
Defined.

(** X3: a customer whose orders are all cancelled is not told of a
    delay, whatever the dates: the status is "normal", the message
    speaks of 0 completed orders and the count is 0. *)
Theorem cancelled_orders_count_as_zero_completed
    (py : StrMethods) (data : TableBundle) (now : Timestamp) (customer_id : string) :
  (exists o, In o (orders_df data) /\ o_customer_id o = Lookup.normalize py customer_id) ->
  (forall o, In o (orders_df data) ->
             o_customer_id o = Lookup.normalize py customer_id ->
             o_status o = "Cancelled") ->
  check_customer_order_status py (Loaded data) now customer_id
    = mkStatusInfo "normal" "✅ You have 0 completed order" (Some 0%nat).
Proof.
  intros [o [Hin Hid]] Hall.
  assert (Hco : forall x, In x (Status.orders_of data (Lookup.normalize py customer_id)) ->
                          o_status x = "Cancelled").
  { intros x Hx. apply In_orders_of in Hx. destruct Hx as [Hx1 Hx2]. now apply Hall. }
  unfold check_customer_order_status. fold (Lookup.normalize py customer_id).
  fold (Status.orders_of data (Lookup.normalize py customer_id)).
  destruct (Status.orders_of data (Lookup.normalize py customer_id)) as [|o1 os] eqn:Hlist.
  - exfalso. assert (Hmem : In o (Status.orders_of data (Lookup.normalize py customer_id)))
      by (apply In_orders_of; now split).
    rewrite Hlist in Hmem. destruct Hmem.
  - rewrite (filter_nil_of_none (critically_delayed (PyDate.today_of now)) (o1 :: os)).
    + rewrite (filter_nil_of_none is_active_status (o1 :: os)).
      * rewrite (filter_nil_of_none (fun o => String.eqb (o_status o) "Delivered") (o1 :: os));
          [reflexivity |].
        intros x Hx. now rewrite (Hco x Hx).
      * intros x Hx. unfold is_active_status. now rewrite (Hco x Hx).
    + intros x Hx. unfold critically_delayed. rewrite (Hco x Hx).
      destruct (o_est_delivery x) as [est|]; [| reflexivity].
      cbn. now rewrite andb_false_r.
Qed.

Lemma cancelled_orders_count_as_zero_completed_witness :
  check_customer_order_status ascii_methods (Loaded Scenario.cancelled_only) Sample.now "cust_003"
  = mkStatusInfo "normal" "✅ You have 0 completed order" (Some 0%nat).
Proof.
  apply (cancelled_orders_count_as_zero_completed ascii_methods Scenario.cancelled_only Sample.now
           "cust_003").
  - exists Scenario.cancelled_order. split; [left; reflexivity | reflexivity].
  - intros o [<- | []] _. reflexivity.
Defined.

(* ================================================================== *)
(** * 18. The delay flag of the customer report and the delay scans *)
(* ================================================================== *)

(** Midnight of the current day is not after the current time. *)
Lemma today_not_after_now (now : Timestamp) :
  value (PyDate.today_of now) <= value now.
Proof.
  unfold PyDate.today_of, PyDate.day_of, PyDate.ns_per_day. cbn [value].
  rewrite Z.mul_comm. apply Z.mul_div_le. lia.
Qed.

(** An order the delay scans select is late for the customer report. *)
Lemma overdue_is_late (now : Timestamp) (o : Order) :
  Report.overdue (PyDate.today_of now) o -> Report.late now o.
Proof.
  intros [[est [Hest Hlt]] [Hd _]]. split; [exact Hd |].
  exists est. split; [exact Hest |].
  pose proof (today_not_after_now now). lia.
Qed.

(** X4: every order that the delay scans of the audit and of the status
    check count as delayed carries the DELAYED flag in the block of the
    customer report. *)
Theorem counted_delays_are_flagged (now : Timestamp) (row : OrderRow) :
  critically_delayed (PyDate.today_of now) (row_order row) = true ->
  Report.carries_delay_flag (Lookup.order_block now row) row.
Proof.
  intros Hscan. apply flag_iff_late. apply overdue_is_late.
  now apply critically_delayed_spec.
Qed.

Lemma counted_delays_are_flagged_witness :
  Report.carries_delay_flag
    (Lookup.order_block Sample.now Scenario.shipped_row) Scenario.shipped_row.
Proof.
  apply (counted_delays_are_flagged Sample.now Scenario.shipped_row).
  vm_compute. reflexivity.
Defined.

(** X5: the customer report only exempts delivered orders: a cancelled
    order whose estimated delivery has passed carries the DELAYED flag,
    although the delay scans never count a cancelled order. *)
Theorem cancelled_order_is_flagged_but_not_counted
    (now : Timestamp) (row : OrderRow) (est : Timestamp) :
  o_status (row_order row) = "Cancelled" ->
  o_est_delivery (row_order row) = Some est ->
  value est < value now ->
  Report.carries_delay_flag (Lookup.order_block now row) row
  /\ forall today : Timestamp, critically_delayed today (row_order row) = false.
Proof.
  intros Hstatus Hest Hlt. split.
  - apply flag_iff_late. split; [rewrite Hstatus; discriminate |].
    now exists est.
  - intros today. unfold critically_delayed. rewrite Hstatus, Hest.
    cbn. now rewrite andb_false_r.
Qed.

Lemma cancelled_order_is_flagged_but_not_counted_witness :
  Report.carries_delay_flag
    (Lookup.order_block Sample.now Scenario.cancelled_row) Scenario.cancelled_row
  /\ forall today : Timestamp,
       critically_delayed today Scenario.cancelled_order = false.
Proof.
  apply (cancelled_order_is_flagged_but_not_counted Sample.now Scenario.cancelled_row
           (PyDate.date 2024 1 9));
    [reflexivity | reflexivity | vm_compute; reflexivity].
Defined.

(** X6: the number of days in a DELAYED flag is never negative: a block
    either has no flag, or its flag counts the whole days from the
    estimated delivery to now, and that count is at least 0. *)
Theorem days_overdue_are_not_negative (now : Timestamp) (o : Order) :
  Lookup.flag_of now o = ""
  \/ exists est : Timestamp,
       o_est_delivery o = Some est
       /\ 0 <= PyDate.sub_days now est
       /\ Lookup.flag_of now o = Report.delay_flag (PyDate.sub_days now est).
Proof.
  unfold Lookup.flag_of. destruct (o_est_delivery o) as [est|]; [| now left].
  destruct (negb (String.eqb (o_status o) "Delivered") && PyDate.gt now est) eqn:Htest;
    [| now left].
  right. exists est. split; [reflexivity |]. split; [| reflexivity].
  apply andb_true_iff in Htest. destruct Htest as [_ Hgt].
  unfold PyDate.gt in Hgt. apply Z.ltb_lt in Hgt.
  unfold PyDate.sub_days, PyDate.ns_per_day. apply Z.div_pos; lia.
Qed.

(* ================================================================== *)
(** * 19. The normal form of a customer id *)
(* ================================================================== *)

Module NormalForm.

Lemma upper_unfold (s : string) : PyStr.upper s = PyStr.map_str Tables.up s.
Proof. reflexivity. Qed.

Lemma up_keeps_space (c : ascii) : PyStr.is_space (Tables.up c) = PyStr.is_space c.
Proof. Tables.by_cases_on_byte c. Qed.

Lemma up_idempotent (c : ascii) : Tables.up (Tables.up c) = Tables.up c.
Proof. Tables.by_cases_on_byte c. Qed.

Lemma map_str_idempotent (f : ascii -> ascii) (s : string) :
  (forall c, f (f c) = f c) -> PyStr.map_str f (PyStr.map_str f s) = PyStr.map_str f s.
Proof.
  intros Hf. induction s as [|c s IH]; [reflexivity |].
  cbn [PyStr.map_str]. now rewrite Hf, IH.
Qed.

Lemma lstrip_map_str (f : ascii -> ascii) (s : string) :
  (forall c, PyStr.is_space (f c) = PyStr.is_space c) ->
  PyStr.lstrip (PyStr.map_str f s) = PyStr.map_str f (PyStr.lstrip s).
Proof.
  intros Hf. induction s as [|c s IH]; [reflexivity |].
  cbn [PyStr.map_str PyStr.lstrip]. rewrite Hf.
  destruct (PyStr.is_space c); [exact IH | reflexivity].
Qed.

Lemma rstrip_map_str (f : ascii -> ascii) (s : string) :
  (forall c, PyStr.is_space (f c) = PyStr.is_space c) ->
  PyStr.rstrip (PyStr.map_str f s) = PyStr.map_str f (PyStr.rstrip s).
Proof.
  intros Hf. induction s as [|c s IH]; [reflexivity |].
  cbn [PyStr.map_str PyStr.rstrip]. rewrite IH, Hf.
  destruct (PyStr.rstrip s); cbn [PyStr.map_str];
    [destruct (PyStr.is_space c); reflexivity | reflexivity].
Qed.

Lemma lstrip_no_leading_space (s : string) : Tables.no_leading_space (PyStr.lstrip s).
Proof.
  induction s as [|c s IH]; [exact I |].
  cbn [PyStr.lstrip]. destruct (PyStr.is_space c) eqn:E; [exact IH | exact E].
Qed.

Lemma lstrip_fixed (s : string) : Tables.no_leading_space s -> PyStr.lstrip s = s.
Proof.
  destruct s as [|c s]; [reflexivity |].
  cbn [Tables.no_leading_space PyStr.lstrip]. now intros ->.
Qed.

Lemma rstrip_no_leading_space (s : string) :
  Tables.no_leading_space s -> Tables.no_leading_space (PyStr.rstrip s).
Proof.
  destruct s as [|c s]; [intros _; exact I |].
  cbn [Tables.no_leading_space PyStr.rstrip]. intros Hc.
  destruct (PyStr.rstrip s); [rewrite Hc |]; exact Hc.
Qed.

Lemma rstrip_cons_kept (c d : ascii) (s kept : string) :
  PyStr.rstrip s = String d kept -> PyStr.rstrip (String c s) = String c (String d kept).
Proof. intros E. cbn [PyStr.rstrip]. now rewrite E. Qed.

Lemma rstrip_idempotent (s : string) : PyStr.rstrip (PyStr.rstrip s) = PyStr.rstrip s.
Proof.
  induction s as [|c s IH]; [reflexivity |].
  cbn [PyStr.rstrip]. destruct (PyStr.rstrip s) as [|d kept] eqn:E.
  - destruct (PyStr.is_space c) eqn:Hc; [reflexivity |].
    cbn [PyStr.rstrip]. now rewrite Hc.
  - now apply rstrip_cons_kept.
Qed.

Lemma strip_idempotent (s : string) : PyStr.strip (PyStr.strip s) = PyStr.strip s.
Proof.
  unfold PyStr.strip.
  rewrite (lstrip_fixed (PyStr.rstrip (PyStr.lstrip s))).
  - apply rstrip_idempotent.
  - apply rstrip_no_leading_space, lstrip_no_leading_space.
Qed.

Lemma strip_upper (s : string) : PyStr.strip (PyStr.upper s) = PyStr.upper (PyStr.strip s).
Proof.
  unfold PyStr.strip. rewrite !upper_unfold.
  rewrite lstrip_map_str by apply up_keeps_space.
  now rewrite rstrip_map_str by apply up_keeps_space.
Qed.

Lemma up_keeps_ascii (c : ascii) :
  (N_of_ascii (Tables.up c) <? 128)%N = (N_of_ascii c <? 128)%N.
Proof. Tables.by_cases_on_byte c. Qed.

Lemma is_ascii_upper (s : string) :
  Tables.is_ascii (PyStr.upper s) = Tables.is_ascii s.
Proof.
  rewrite upper_unfold. induction s as [|c s IH]; [reflexivity |].
  cbn [PyStr.map_str Tables.is_ascii]. now rewrite up_keeps_ascii, IH.
Qed.

Lemma is_ascii_lstrip (s : string) :
  Tables.is_ascii s = true -> Tables.is_ascii (PyStr.lstrip s) = true.
Proof.
  induction s as [|c s IH]; [reflexivity |]. intros H.
  cbn [PyStr.lstrip]. destruct (PyStr.is_space c); [| exact H].
  cbn [Tables.is_ascii] in H. apply andb_true_iff in H. now apply IH.
Qed.

Lemma is_ascii_rstrip (s : string) :
  Tables.is_ascii s = true -> Tables.is_ascii (PyStr.rstrip s) = true.
Proof.
  induction s as [|c s IH]; [reflexivity |]. intros H.
  cbn [Tables.is_ascii] in H. apply andb_true_iff in H. destruct H as [Hc Hs].
  specialize (IH Hs). cbn [PyStr.rstrip].
  destruct (PyStr.rstrip s) as [|d kept].
  - destruct (PyStr.is_space c); [reflexivity |].
    cbn [Tables.is_ascii]. now rewrite Hc.
  - cbn [Tables.is_ascii] in *. now rewrite Hc, IH.
Qed.

Lemma is_ascii_strip (s : string) :
  Tables.is_ascii s = true -> Tables.is_ascii (PyStr.strip s) = true.
Proof. intros H. unfold PyStr.strip. now apply is_ascii_rstrip, is_ascii_lstrip. Qed.

(** The normal form of an ASCII id, by the methods of the runtime. *)
Lemma normalize_on_ascii (py : StrMethods) (s : string) :
  Tables.on_ascii_text py ->
  Tables.is_ascii s = true ->
  Lookup.normalize py s = PyStr.upper (PyStr.strip s)
  /\ Tables.is_ascii (PyStr.upper (PyStr.strip s)) = true.
Proof.
  intros Hpy Hs. unfold Lookup.normalize.
  destruct (Hpy s Hs) as [-> _].
  pose proof (is_ascii_strip s Hs) as Hstrip.
  destruct (Hpy (PyStr.strip s) Hstrip) as [_ ->].
  split; [reflexivity |]. now rewrite is_ascii_upper.
Qed.

Lemma normalize_idempotent (py : StrMethods) (s : string) :
  Tables.on_ascii_text py ->
  Tables.is_ascii s = true ->
  Lookup.normalize py (Lookup.normalize py s) = Lookup.normalize py s.
Proof.
  intros Hpy Hs.
  destruct (normalize_on_ascii py s Hpy Hs) as [E Hascii]. rewrite E.
  destruct (normalize_on_ascii py _ Hpy Hascii) as [-> _].
  rewrite strip_upper, strip_idempotent.
  rewrite !upper_unfold. apply map_str_idempotent, up_idempotent.
Qed.

End NormalForm.

(** X7: an ASCII id that is already trimmed and upper-cased is its own
    normal form, so the customer report and the status check answer an
    ASCII id and its normal form alike.  The methods of the runtime are
    taken to do on ASCII text what [str.strip] and [str.upper] do
    there. *)
Theorem lookup_accepts_any_spelling
    (py : StrMethods) (data : load_result) (now : Timestamp) (customer_id : string) :
  Tables.on_ascii_text py ->
  Tables.is_ascii customer_id = true ->
  Lookup.normalize py (Lookup.normalize py customer_id) = Lookup.normalize py customer_id
  /\ get_customer_orders py data now (Lookup.normalize py customer_id)
     = get_customer_orders py data now customer_id
  /\ check_customer_order_status py data now (Lookup.normalize py customer_id)
     = check_customer_order_status py data now customer_id.
Proof.
  intros Hpy Hascii.
  pose proof (NormalForm.normalize_idempotent py customer_id Hpy Hascii) as Hnorm.
  split; [exact Hnorm |]. unfold Lookup.normalize in Hnorm. split.
  - unfold get_customer_orders, Lookup.normalize. destruct data; [reflexivity |].
    now rewrite Hnorm.
  - unfold check_customer_order_status, Lookup.normalize. destruct data; [reflexivity |].
    now rewrite Hnorm.
Qed.

Lemma lookup_accepts_any_spelling_witness :
  get_customer_orders ascii_methods (Loaded Sample.tables) Sample.now "CUST_003"
  = get_customer_orders ascii_methods (Loaded Sample.tables) Sample.now "  cust_003 ".
Proof.
  destruct (lookup_accepts_any_spelling ascii_methods (Loaded Sample.tables) Sample.now
              "  cust_003 ") as (_ & Hsame & _).
  - intros s _. split; reflexivity.
  - reflexivity.
  - exact Hsame.
Defined.

(* ================================================================== *)
(** * 20. What the customer report shows *)
(* ================================================================== *)

Lemma filter_skips (f : Order -> bool) (before after : list Order) (other : Order) :
  f other = false ->
  List.filter f (before ++ other :: after) = List.filter f (before ++ after).
Proof.
  intros Hother. rewrite !List.filter_app. cbn [List.filter]. now rewrite Hother.
Qed.

(** The rows of the join come from the orders given to it. *)
Lemma merge_products_rows (orders : list Order) (products : list Product) (row : OrderRow) :
  In row (merge_products orders products) -> In (row_order row) orders.
Proof.
  unfold merge_products. rewrite in_flat_map. intros [o [Ho Hrow]].
  destruct (List.filter _ products) as [|p ps].
  - destruct Hrow as [<- | []]. exact Ho.
  - apply in_map_iff in Hrow. destruct Hrow as [q [<- _]]. exact Ho.
Qed.

(** X8: the customer report and the status check show a customer
    nothing of the others: every row behind the report is an order of
    that customer, and an order of another customer, wherever it stands
    in the order table, changes neither the report nor the status. *)
Theorem report_shows_own_orders_only
    (py : StrMethods) (data : TableBundle) (now : Timestamp) (customer_id : string) :
  Forall (fun row => In (row_order row) (orders_df data)
                     /\ o_customer_id (row_order row) = Lookup.normalize py customer_id)
         (Lookup.join_rows data (Lookup.normalize py customer_id))
  /\ forall (before after : list Order) (other : Order),
       o_customer_id other <> Lookup.normalize py customer_id ->
       get_customer_orders py
         (Loaded (Tables.with_orders data (before ++ other :: after))) now customer_id
       = get_customer_orders py
           (Loaded (Tables.with_orders data (before ++ after))) now customer_id
       /\ check_customer_order_status py
            (Loaded (Tables.with_orders data (before ++ other :: after))) now customer_id
          = check_customer_order_status py
              (Loaded (Tables.with_orders data (before ++ after))) now customer_id.
Proof.
  split.
  - apply List.Forall_forall. intros row Hrow. unfold Lookup.join_rows in Hrow.
    apply merge_products_rows, filter_In in Hrow.
    destruct Hrow as [Hin Hid]. now apply String.eqb_eq in Hid.
  - intros before after other Hother.
    assert (Hskip : List.filter
                      (fun o => String.eqb (o_customer_id o) (Lookup.normalize py customer_id))
                      (before ++ other :: after)
                    = List.filter
                        (fun o => String.eqb (o_customer_id o) (Lookup.normalize py customer_id))
                        (before ++ after)).
    { apply filter_skips. now apply String.eqb_neq. }
    unfold Lookup.normalize in Hskip. split.
    + unfold get_customer_orders, Tables.with_orders. cbn [orders_df customers_df products_df].
      now rewrite Hskip.
    + unfold check_customer_order_status, Tables.with_orders. cbn [orders_df].
      now rewrite Hskip.
Qed.

Lemma report_shows_own_orders_only_witness :
  get_customer_orders ascii_methods
    (Loaded (Tables.with_orders Sample.tables (Sample.orders ++ [Scenario.cancelled_order])))
    Sample.now "cust_001"
  = get_customer_orders ascii_methods
      (Loaded (Tables.with_orders Sample.tables (Sample.orders ++ []))) Sample.now "cust_001".
Proof.
  apply (report_shows_own_orders_only ascii_methods Sample.tables Sample.now "cust_001").
  vm_compute. discriminate.
Defined.

(** X9: a customer who is in the customer table and has no order gets
    the greeting with the name of the first matching customer row, and
    no report. *)
Theorem customer_without_orders_is_greeted
    (py : StrMethods) (data : TableBundle) (now : Timestamp) (customer_id : string) :
  (exists c, In c (customers_df data)
             /\ c_customer_id c = Lookup.normalize py customer_id) ->
  (forall o, In o (orders_df data) ->
             o_customer_id o <> Lookup.normalize py customer_id) ->
  exists first : Customer,
    In first (customers_df data)
    /\ c_customer_id first = Lookup.normalize py customer_id
    /\ get_customer_orders py (Loaded data) now customer_id
       = "Hello " ++ c_name first ++ "! You currently have no orders in the system.".
Proof.
  intros [c [Hc Hcid]] Hnone.
  destruct (filter_cons_of_some
              (fun c => String.eqb (c_customer_id c) (Lookup.normalize py customer_id))
              (customers_df data) c Hc)
    as [first [others Hfirst]]; [now apply String.eqb_eq |].
  assert (Hin : In first (List.filter
                            (fun c => String.eqb (c_customer_id c)
                                        (Lookup.normalize py customer_id))
                            (customers_df data))) by (rewrite Hfirst; now left).
  apply filter_In in Hin. destruct Hin as [Hin Hid]. apply String.eqb_eq in Hid.
  exists first. split; [exact Hin |]. split; [exact Hid |].
  unfold get_customer_orders. fold (Lookup.normalize py customer_id). rewrite Hfirst.
  rewrite (filter_nil_of_none
             (fun o => String.eqb (o_customer_id o) (Lookup.normalize py customer_id)));
    [reflexivity |].
  intros o Ho. apply String.eqb_neq. now apply Hnone.
Qed.

Lemma customer_without_orders_is_greeted_witness :
  exists first : Customer,
    In first Sample.customers
    /\ c_customer_id first = "CUST_003"
    /\ get_customer_orders ascii_methods (Loaded Sample.tables) Sample.now "cust_003"
       = "Hello " ++ c_name first ++ "! You currently have no orders in the system.".
Proof.
  apply (customer_without_orders_is_greeted ascii_methods Sample.tables Sample.now "cust_003").
  - exists (mkCustomer "CUST_003" "Chen Li" "chen@example.com" "East").
    split; [right; right; left; reflexivity | reflexivity].
  - intros o Ho. vm_compute in Ho.
    destruct Ho as [<- | [<- | [<- | []]]]; vm_compute; discriminate.
Defined.

(** With unique keys, at most one product has a given key. *)
Lemma filter_unique_key (products : list Product) (key : string) :
  List.NoDup (map p_product_id products) ->
  List.filter (fun p => String.eqb (p_product_id p) key) products = []
  \/ exists p, List.filter (fun p => String.eqb (p_product_id p) key) products = [p].
Proof.
  induction products as [|p products IH]; intros Hnodup; [now left |].
  cbn [map] in Hnodup. apply List.NoDup_cons_iff in Hnodup. destruct Hnodup as [Hfresh Hnodup].
  cbn [List.filter]. destruct (String.eqb (p_product_id p) key) eqn:E.
  - right. exists p. f_equal. apply filter_nil_of_none. intros q Hq.
    apply String.eqb_neq. intros Hkey. apply Hfresh.
    apply String.eqb_eq in E. rewrite E, <- Hkey. now apply in_map.
  - now apply IH.
Qed.

Lemma merge_products_cons (o : Order) (orders : list Order) (products : list Product) :
  merge_products (o :: orders) products
  = (merge_products [o] products ++ merge_products orders products)%list.
Proof.
  unfold merge_products. cbn [flat_map]. now rewrite app_nil_r.
Qed.

Lemma merge_products_one (o : Order) (products : list Product) :
  (1 <= length (merge_products [o] products))%nat.
Proof.
  unfold merge_products. cbn [flat_map]. rewrite app_nil_r.
  destruct (List.filter _ products); simpl; lia.
Qed.

(** X10: the left join with the products never loses an order: it has
    at least as many rows as orders; and when the product ids are
    unique it has exactly one row per order, in the order of the
    orders, so that the total the report prints is the number of the
    customer's orders. *)
Theorem join_keeps_every_order (orders : list Order) (products : list Product) :
  (length orders <= length (merge_products orders products))%nat
  /\ (List.NoDup (map p_product_id products) ->
      map row_order (merge_products orders products) = orders
      /\ length (merge_products orders products) = length orders).
Proof.
  split.
  - induction orders as [|o orders IH]; [simpl; lia |].
    rewrite merge_products_cons, length_app. cbn [length].
    pose proof (merge_products_one o products). lia.
  - intros Hnodup.
    assert (Hmap : map row_order (merge_products orders products) = orders).
    { induction orders as [|o orders IH]; [reflexivity |].
      rewrite merge_products_cons, map_app, IH. f_equal.
      unfold merge_products. cbn [flat_map]. rewrite app_nil_r.
      destruct (filter_unique_key products (o_product_id o) Hnodup) as [-> | [p ->]];
        reflexivity. }
    split; [exact Hmap |]. rewrite <- Hmap at 2. now rewrite length_map.
Qed.

Lemma join_keeps_every_order_witness :
  map row_order (merge_products Sample.orders Sample.products) = Sample.orders
  /\ length (merge_products Sample.orders Sample.products) = length Sample.orders.
Proof.
  apply (join_keeps_every_order Sample.orders Sample.products).
  vm_compute. repeat constructor; simpl; intuition discriminate.
Defined.

(** X11: an order whose product id is the id of no product still gets
    its row in the join, without product, and the block of that row
    shows nan for the name, the category and the price. *)
Theorem order_without_product_shows_nan
    (now : Timestamp) (o : Order) (products : list Product) :
  (forall p, In p products -> p_product_id p <> o_product_id o) ->
  merge_products [o] products = [mkOrderRow o None]
  /\ PyStr.Contains ("  Product: nan (nan)" ++ newline ++ "  Price: $nan" ++ newline)
       (Lookup.order_block now (mkOrderRow o None)).
Proof.
  intros Hnone. split.
  - unfold merge_products. cbn [flat_map].
    rewrite filter_nil_of_none; [reflexivity |].
    intros p Hp. apply String.eqb_neq. now apply Hnone.
  - rewrite order_block_unfold. apply PyStrFacts.Contains_append_r.
    exists (newline ++ "▸ Order ID: " ++ o_order_id o ++ newline). eexists.
    unfold Report.order_lines. cbn [row_order row_name row_category row_price row_product].
    rewrite !PyStrFacts.append_assoc. reflexivity.
Qed.

Lemma order_without_product_shows_nan_witness :
  merge_products [Scenario.cancelled_order] [] = [Scenario.cancelled_row]
  /\ PyStr.Contains ("  Product: nan (nan)" ++ newline ++ "  Price: $nan" ++ newline)
       (Lookup.order_block Sample.now Scenario.cancelled_row).
Proof.
  apply (order_without_product_shows_nan Sample.now Scenario.cancelled_order []).
  intros p [].
Defined.

(* ================================================================== *)
(** * 21. The table formatter at the bounds of the cap *)
(* ================================================================== *)





(* ================================================================== *)
(** * 22. The dispatch of the business tool *)
(* ================================================================== *)





(** X15: a result that is a [bool] is dispatched as a number: the
    report shows 1 for True and 0 for False, not the word. *)
Theorem boolean_result_is_shown_as_number
    (exec : interpreter) (library : string -> pyvalue)
    (value_error : ambiguity -> string * string) (data : TableBundle)
    (python_code : string) (local_env : gmap string pyvalue) (b : bool) :
  exec python_code (local_env_of library data) = Completed local_env ->
  local_env !! "result" = Some (VScalar (SObj (OBool b))) ->
  execute_pandas_code_business exec library value_error (Loaded data) python_code
    = Returns (Report.scalar_header "Result" ++ "▸ " ++ (if b then "1" else "0") ++ newline).
Proof.
  intros Hrun Hres. unfold execute_pandas_code_business. rewrite Hrun, Hres.
  cbn [format_result is_number_obj]. rewrite format_scalar_output_unfold.
  now destruct b.
Qed.

Lemma boolean_result_is_shown_as_number_witness :
  Scenario.run (Loaded Sample.tables) "result = len(orders_df) > 2"
  = Returns (Report.scalar_header "Result" ++ "▸ " ++ "1" ++ newline).
Proof.
  apply (boolean_result_is_shown_as_number Scenario.exec Sample.library Sample.value_error
            Sample.tables
           "result = len(orders_df) > 2"
           (<["result" := VScalar (SObj (OBool true))]>
              (local_env_of Sample.library Sample.tables)) true);
    vm_compute; reflexivity.
Defined.

(** X16: a result that is a numpy integer passes the number test of the
    dispatch but not the one of [format_scalar_output]: it is shown as
    its plain digits, while the same number as a Python [int] is shown
    with thousands separators. *)
Theorem numpy_integer_result_is_shown_plain
    (exec : interpreter) (library : string -> pyvalue)
    (value_error : ambiguity -> string * string) (data : TableBundle)
    (python_code : string) (local_env : gmap string pyvalue) (z : Z) :
  exec python_code (local_env_of library data) = Completed local_env ->
  (local_env !! "result" = Some (VScalar (SObj (ONpInteger z))) ->
   execute_pandas_code_business exec library value_error (Loaded data) python_code
     = Returns (Report.scalar_header "Result" ++ "▸ " ++ PyStr.of_int z ++ newline))
  /\ (local_env !! "result" = Some (VScalar (SObj (OInt z))) ->
      execute_pandas_code_business exec library value_error (Loaded data) python_code
        = Returns (Report.scalar_header "Result" ++ "▸ "
                     ++ PyStr.format_int_comma z ++ newline)).
Proof.
  intros Hrun. unfold execute_pandas_code_business. rewrite Hrun.
  split; intros ->; cbn [format_result is_number_obj];
    now rewrite format_scalar_output_unfold.
Qed.

Lemma numpy_integer_result_is_shown_plain_witness :
  Scenario.run (Loaded Sample.tables) "result = orders_df['order_id'].count()"
  = Returns (Report.scalar_header "Result" ++ "▸ " ++ "3" ++ newline).
Proof.
  destruct (numpy_integer_result_is_shown_plain Scenario.exec Sample.library Sample.value_error
            Sample.tables
              "result = orders_df['order_id'].count()"
              (<["result" := VScalar (SObj (ONpInteger 3))]>
                 (local_env_of Sample.library Sample.tables)) 3) as [Hplain _];
    [vm_compute; reflexivity |].
  apply Hplain. vm_compute. reflexivity.
Defined.

(* ================================================================== *)
(** * 23. The audit lines on the dashboard *)
(* ================================================================== *)

Lemma prefix_contains (needle hay : string) :
  String.prefix needle hay = true -> PyStr.contains needle hay = true.
Proof.
  intros H. destruct hay; cbn [PyStr.contains]; now rewrite H.
Qed.

(** The last element a filter keeps is the last element of the list
    that passes the test. *)
Lemma last_filter_split {A : Type} (f : A -> bool) (l : list A) (x : A) :
  last (List.filter f l) = Some x ->
  exists before after : list A,
    l = (before ++ x :: after)%list /\ f x = true
    /\ forall y, In y after -> f y = false.
Proof.
  induction l as [|y l IH]; [discriminate |].
  cbn [List.filter]. destruct (List.filter f l) as [|z rest] eqn:E.
  - destruct (f y) eqn:Hy; [| discriminate].
    intros [= <-]. exists [], l. split; [reflexivity |]. split; [exact Hy |].
    intros w Hw. destruct (f w) eqn:Hfw; [| reflexivity].
    assert (Hin : In w (List.filter f l)) by (apply filter_In; now split).
    rewrite E in Hin. destruct Hin.
  - intros Hlast.
    assert (Hrest : last (z :: rest) = Some x).
    { destruct (f y); [| exact Hlast]. now rewrite last_cons_cons in Hlast. }
    destruct (IH Hrest) as [before [after (-> & Hx & Hafter)]].
    exists (y :: before), after. now repeat split.
Qed.

(** The outcomes of the revenue audit on five rows or more. *)
Lemma revenue_check_cases (isolation_forest : predictor) (data : TableBundle) :
  (5 <= length (revenue_df data))%nat ->
  (List.filter (fun ra : Revenue * Z => snd ra =? -1) (Audit.labelled isolation_forest data) = []
   /\ check_for_revenue_anomalies isolation_forest (Loaded data)
      = "SUCCESS: No significant revenue anomalies detected.")
  \/ (exists (r : Revenue) (a : Z),
        last (List.filter (fun ra : Revenue * Z => snd ra =? -1)
                (Audit.labelled isolation_forest data)) = Some (r, a)
        /\ check_for_revenue_anomalies isolation_forest (Loaded data)
           = Audit.critical_line r).
Proof.
  intros Hrows. unfold check_for_revenue_anomalies.
  destruct (length (revenue_df data) <? 5)%nat eqn:E; [apply Nat.ltb_lt in E; lia |].
  fold (Audit.labelled isolation_forest data).
  destruct (last (List.filter (fun ra : Revenue * Z => snd ra =? -1)
                    (Audit.labelled isolation_forest data))) as [[r a]|] eqn:Hlast.
  - right. exists r, a. split; reflexivity.
  - left. split; [| reflexivity]. now apply last_None.
Qed.

Lemma critical_line_is_an_issue (r : Revenue) :
  App.has_revenue_issue (Audit.critical_line r) = true.
Proof.
  apply prefix_contains, PyStrFacts.prefix_spec. eexists.
  unfold Audit.critical_line.
  change "CRITICAL REVENUE ANOMALY: Unusual pattern on "
    with ("CRITICAL" ++ " REVENUE ANOMALY: Unusual pattern on ").
  rewrite PyStrFacts.append_assoc. reflexivity.
Qed.

(** X18: on loaded tables the dashboard reads the revenue line as an
    issue exactly when the table has five rows or more and the detector
    labels some row -1; the line is then about the last such row of the
    table: it gives its date, its amount and its order id. *)
Theorem revenue_issue_iff_row_flagged (isolation_forest : predictor) (data : TableBundle) :
  (App.has_revenue_issue (check_for_revenue_anomalies isolation_forest (Loaded data)) = true
   <-> (5 <= length (revenue_df data))%nat
       /\ exists r : Revenue, In (r, -1) (Audit.labelled isolation_forest data))
  /\ (App.has_revenue_issue (check_for_revenue_anomalies isolation_forest (Loaded data)) = true
      -> exists (before after : list (Revenue * Z)) (r : Revenue),
           Audit.labelled isolation_forest data = (before ++ (r, -1) :: after)%list
           /\ (forall later, In later after -> snd later <> -1)
           /\ check_for_revenue_anomalies isolation_forest (Loaded data)
              = Audit.critical_line r).
Proof.
  destruct (Nat.lt_ge_cases (length (revenue_df data)) 5) as [Hfew | Hrows].
  - assert (E : check_for_revenue_anomalies isolation_forest (Loaded data)
                = "Not enough data points to run anomaly detection.").
    { unfold check_for_revenue_anomalies.
      destruct (length (revenue_df data) <? 5)%nat eqn:Hlt; [reflexivity |].
      apply Nat.ltb_ge in Hlt. lia. }
    rewrite E. split.
    + split; [discriminate | intros [Hge _]; lia].
    + discriminate.
  - destruct (revenue_check_cases isolation_forest data Hrows)
      as [[Hnone ->] | [r [a [Hlast ->]]]].
    + split.
      * split; [discriminate |]. intros [_ [r Hr]]. exfalso.
        assert (Hin : In (r, -1)
                        (List.filter (fun ra : Revenue * Z => snd ra =? -1)
                           (Audit.labelled isolation_forest data)))
          by (apply filter_In; split; [exact Hr | reflexivity]).
        rewrite Hnone in Hin. destruct Hin.
      * discriminate.
    + destruct (last_filter_split _ _ _ Hlast) as [before [after (Hsplit & Ha & Hafter)]].
      cbn [snd] in Ha. apply Z.eqb_eq in Ha. subst a. split.
      * rewrite critical_line_is_an_issue. split; [| reflexivity].
        intros _. split; [exact Hrows |]. exists r. rewrite Hsplit.
        apply in_or_app. right. now left.
      * intros _. exists before, after, r. split; [exact Hsplit |].
        split; [| reflexivity]. intros later Hlater. apply Z.eqb_neq. now apply Hafter.
Qed.

Lemma revenue_issue_iff_row_flagged_witness :
  App.has_revenue_issue
    (check_for_revenue_anomalies Scenario.above_1000 (Loaded Scenario.tables5)) = true.
Proof.
  apply (revenue_issue_iff_row_flagged Scenario.above_1000 Scenario.tables5).
  split; [simpl; lia |].
  exists (mkRevenue "REV_4" "ORD_103" (PyFloat.of_Z 98000) (PyDate.date 2024 3 4) "card").
  vm_compute. auto 6.
Defined.

(** X19: on loaded tables the dashboard reads the delay line as an
    issue exactly when some order has a known estimated delivery before
    today and a status other than Delivered and Cancelled. *)
Theorem delay_issue_iff_order_overdue (data : TableBundle) (now : Timestamp) :
  App.has_delay_issue (check_for_critical_delays (Loaded data) now) = true
  <-> exists o, In o (orders_df data) /\ Report.overdue (PyDate.today_of now) o.
Proof.
  assert (Hex : (exists o, In o (orders_df data) /\ Report.overdue (PyDate.today_of now) o)
                <-> List.filter (critically_delayed (PyDate.today_of now)) (orders_df data)
                    <> []).
  { rewrite filter_nonempty_iff.
    split; intros [o [Hin Ho]]; exists o; (split; [exact Hin |]);
      now apply critically_delayed_spec. }
  rewrite Hex. unfold App.has_delay_issue.
  destruct (delay_check_cases data now) as [[Hnil ->] | [Hne Hprefix]].
  - rewrite Hnil. split; [discriminate | congruence].
  - rewrite (prefix_contains _ _ Hprefix). tauto.
Qed.

(** X20: the login notification of a customer is of the error kind
    exactly when that customer has an order that the delay scan
    selects; otherwise, also when the tables cannot be loaded, it is of
    the success kind. *)
Theorem notification_is_error_iff_delayed
    (py : StrMethods) (data : load_result) (now : Timestamp) (customer_id : string) :
  (App.notification_type (check_customer_order_status py data now customer_id) = "error"
   <-> exists tables o,
         data = Loaded tables /\ In o (orders_df tables)
         /\ o_customer_id o = Lookup.normalize py customer_id
         /\ critically_delayed (PyDate.today_of now) o = true)
  /\ (App.notification_type (check_customer_order_status py data now customer_id) <> "error"
      -> App.notification_type (check_customer_order_status py data now customer_id)
         = "success").
Proof.
  unfold App.notification_type. split.
  - destruct data as [message | tables].
    + cbn. split; [discriminate | intros [t [o [Habs _]]]; discriminate].
    + assert (Hiff : si_status (check_customer_order_status py (Loaded tables) now customer_id)
                       = "delayed"
                     <-> Status.delayed_of tables now (Lookup.normalize py customer_id) <> []).
      { destruct (status_check_cases py tables now customer_id)
          as [[Hnone ->] | [[Hdel ->] | (_ & Hdel & ->)]]; cbn [si_status].
        - unfold Status.delayed_of. rewrite Hnone. cbn [List.filter].
          split; [discriminate | congruence].
        - tauto.
        - rewrite Hdel. split; [discriminate | congruence]. }
      rewrite nonempty_has_member in Hiff.
      destruct (String.eqb_spec
                  (si_status (check_customer_order_status py (Loaded tables) now customer_id))
                  "delayed") as [Heq | Hneq]; cbn [negb].
      * split; [intros _ | reflexivity].
        apply Hiff in Heq. destruct Heq as [o Ho]. apply In_delayed_of in Ho.
        destruct Ho as (Hin & Hid & Hover). exists tables, o.
        split; [reflexivity |]. split; [exact Hin |]. split; [exact Hid |].
        now apply critically_delayed_spec.
      * split; [discriminate |]. intros [t [o (Ht & Hin & Hid & Hscan)]].
        injection Ht as <-. exfalso. apply Hneq, Hiff. exists o.
        apply In_delayed_of. split; [exact Hin |]. split; [exact Hid |].
        now apply critically_delayed_spec.
  - destruct (negb _); [reflexivity | congruence].
Qed.

(* ================================================================== *)
(** * 24. Tool outputs in the trace panel *)
(* ================================================================== *)

Module Separators.

(** Two ways to cut one text meet in a common middle. *)
Lemma append_eq_append (a b c d : string) :
  a ++ b = c ++ d ->
  (exists m, c = a ++ m /\ b = m ++ d) \/ (exists m, a = c ++ m /\ d = m ++ b).
Proof.
  revert c. induction a as [|x a IH]; intros c H.
  - left. exists c. split; [reflexivity | exact H].
  - destruct c as [|y c].
    + right. exists (String x a). split; [reflexivity |]. symmetry. exact H.
    + rewrite !PyStrFacts.append_cons in H. injection H as <- H.
      destruct (IH c H) as [[m [-> ->]] | [m [-> ->]]].
      * left. exists m. now rewrite PyStrFacts.append_cons.
      * right. exists m. now rewrite PyStrFacts.append_cons.
Qed.

Lemma absent_of_has_char (c : ascii) (s : string) :
  Audit.has_char c s = false -> Audit.absent c s.
Proof.
  intros Hno l r ->. revert Hno. induction l as [|d l IH].
  - rewrite PyStrFacts.append_nil_l. cbn [Audit.has_char].
    now rewrite Ascii.eqb_refl.
  - rewrite PyStrFacts.append_cons. cbn [Audit.has_char].
    intros H. apply orb_false_iff in H. now apply IH.
Qed.

(** A text without the separator occurs on one side of it. *)
Lemma Contains_across (needle a b : string) (c : ascii) :
  Audit.absent c needle ->
  PyStr.Contains needle (a ++ String c b) ->
  PyStr.Contains needle a \/ PyStr.Contains needle b.
Proof.
  intros Habs [l [r H]]. symmetry in H.
  destruct (append_eq_append _ _ _ _ H) as [[m [Ha Hr]] | [m [Hl Hr]]].
  - (* the occurrence starts inside [a] *)
    destruct (append_eq_append _ _ _ _ Hr) as [[m2 [Hm Hr2]] | [m2 [Hn Hr2]]].
    + left. exists l, m2. now rewrite Ha, Hm.
    + destruct m2 as [|x m2].
      * left. exists l, "". rewrite Ha, Hn.
        now rewrite !PyStrFacts.append_nil_r.
      * exfalso. rewrite PyStrFacts.append_cons in Hr2. injection Hr2 as <- _.
        now apply (Habs m m2).
  - (* the occurrence starts after [a] *)
    destruct m as [|x m].
    + rewrite PyStrFacts.append_nil_l in Hr.
      destruct needle as [|y needle].
      * left. exists a, "". now rewrite PyStrFacts.append_nil_r.
      * exfalso. rewrite PyStrFacts.append_cons in Hr. injection Hr as <- _.
        now apply (Habs "" needle).
    + right. rewrite PyStrFacts.append_cons in Hr. injection Hr as _ ->.
      now exists m, r.
Qed.

(** The same, for the test. *)
Lemma contains_across (needle a b : string) (c : ascii) :
  Audit.has_char c needle = false ->
  PyStr.contains needle a = false ->
  PyStr.contains needle b = false ->
  PyStr.contains needle (a ++ String c b) = false.
Proof.
  intros Hc Ha Hb.
  destruct (PyStr.contains needle (a ++ String c b)) eqn:E; [| reflexivity].
  apply PyStrFacts.contains_spec in E.
  apply Contains_across in E; [| now apply absent_of_has_char].
  destruct E as [E | E]; apply PyStrFacts.contains_spec in E; congruence.
Qed.

(** The report of a fault, cut at the separators around the message and
    the trace. *)
Lemma error_report_separated (message trace : string) :
  error_report message trace
  = "Python Execution Error:"
      ++ String Audit.space
           (message
              ++ String Audit.line_feed
                   ("Traceback:"
                      ++ String Audit.space
                           (trace
                              ++ String Audit.line_feed (newline ++ common_issues)))).
Proof. rewrite error_report_unfold. reflexivity. Qed.

(** A keyword without space and line feed occurs in the report of a
    fault only if it occurs in a fixed part, in the message or in the
    trace. *)
Lemma keyword_not_in_report (needle message trace : string) :
  Audit.has_char Audit.space needle = false ->
  Audit.has_char Audit.line_feed needle = false ->
  PyStr.contains needle "Python Execution Error:" = false ->
  PyStr.contains needle "Traceback:" = false ->
  PyStr.contains needle (newline ++ common_issues) = false ->
  PyStr.contains needle message = false ->
  PyStr.contains needle trace = false ->
  PyStr.contains needle (error_report message trace) = false.
Proof.
  intros Hsp Hlf H1 H2 H3 Hmsg Htb. rewrite error_report_separated.
  apply contains_across; [exact Hsp | exact H1 |].
  apply contains_across; [exact Hlf | exact Hmsg |].
  apply contains_across; [exact Hsp | exact H2 |].
  now apply contains_across.
Qed.

End Separators.

(** X21: the trace panel shows a tool output as an error when it
    contains ERROR or CRITICAL.  The not-found answer of the customer
    tool is shown as an error.  The report of a failed snippet is shown
    as a success, unless the message or the stack trace of the fault
    happens to contain one of the two words: the fixed text of the
    report says "Error", not "ERROR". *)
Theorem failed_snippet_is_shown_as_success
    (exec : interpreter) (library : string -> pyvalue)
    (value_error : ambiguity -> string * string) (data : TableBundle)
    (python_code : string) (e : PyException) :
  (forall clean_id : string,
     App.shown_as_error
       ("ERROR: Customer ID '" ++ clean_id ++ "' not found in the system.") = true)
  /\ (forall message trace : string,
        exec python_code (local_env_of library data) = Raised e ->
        is_Exception e = true ->
        exc_str e = Text message ->
        exc_traceback e = Text trace ->
        App.shown_as_error message = false ->
        App.shown_as_error trace = false ->
        exists report : string,
          execute_pandas_code_business exec library value_error (Loaded data) python_code
            = Returns report
          /\ App.shown_as_error report = false).
Proof.
  split.
  - intros clean_id. unfold App.shown_as_error.
    rewrite (prefix_contains "ERROR"); [reflexivity |].
    apply PyStrFacts.prefix_spec. eexists.
    change "ERROR: Customer ID '" with ("ERROR" ++ ": Customer ID '").
    rewrite PyStrFacts.append_assoc. reflexivity.
  - intros message trace Hraise Hexc Hstr Htrace Hmsg Htb.
    exists (error_report message trace). split.
    + unfold execute_pandas_code_business, handle_exception.
      now rewrite Hraise, Hexc, Hstr, Htrace.
    + unfold App.shown_as_error in *.
      apply orb_false_iff in Hmsg. destruct Hmsg as [Hm1 Hm2].
      apply orb_false_iff in Htb. destruct Htb as [Ht1 Ht2].
      apply orb_false_iff. split;
        apply Separators.keyword_not_in_report; try assumption; reflexivity.
Qed.

Lemma failed_snippet_is_shown_as_success_witness :
  exists report : string,
    Sample.run (Loaded Sample.tables) "result = 1 / 0" = Returns report
    /\ App.shown_as_error report = false.
Proof.
  destruct (failed_snippet_is_shown_as_success Sample.exec Sample.library
              Sample.value_error Sample.tables "result = 1 / 0" Sample.zero_division)
    as [_ Hshown].
  eapply Hshown; reflexivity.
Defined.

(** X22: when the tables cannot be loaded, the two audits answer with
    the text of the load error, and the dashboard reads that text as
    normal, for the revenue and for the deliveries, unless the text of
    the fault itself contains CRITICAL or ALERT. *)
Theorem load_failure_reads_as_normal
    (isolation_forest : predictor) (now : Timestamp) (e : string) :
  PyStr.contains "CRITICAL" e = false ->
  PyStr.contains "ALERT" e = false ->
  Forall
    (fun message =>
       check_for_revenue_anomalies isolation_forest (LoadError message) = message
       /\ check_for_critical_delays (LoadError message) now = message
       /\ App.has_revenue_issue message = false
       /\ App.has_delay_issue message = false)
    [Loader.file_not_found e; Loader.other_fault e].
Proof.
  intros Hcritical Halert.
  assert (Hfile : forall needle,
            Audit.has_char Audit.space needle = false ->
            PyStr.contains needle "Error: Required data file not found:" = false ->
            PyStr.contains needle e = false ->
            PyStr.contains needle (Loader.file_not_found e) = false).
  { intros needle Hsp Hfixed He.
    change (Loader.file_not_found e)
      with ("Error: Required data file not found:" ++ String Audit.space e).
    now apply Separators.contains_across. }
  assert (Hother : forall needle,
            Audit.has_char Audit.space needle = false ->
            PyStr.contains needle "Error loading data:" = false ->
            PyStr.contains needle e = false ->
            PyStr.contains needle (Loader.other_fault e) = false).
  { intros needle Hsp Hfixed He.
    change (Loader.other_fault e) with ("Error loading data:" ++ String Audit.space e).
    now apply Separators.contains_across. }
  unfold App.has_revenue_issue, App.has_delay_issue.
  repeat constructor; try reflexivity;
    (apply Hfile || apply Hother); try assumption; reflexivity.
Qed.

Lemma load_failure_reads_as_normal_witness :
  Forall
    (fun message =>
       check_for_revenue_anomalies Scenario.above_1000 (LoadError message) = message
       /\ check_for_critical_delays (LoadError message) Sample.now = message
       /\ App.has_revenue_issue message = false
       /\ App.has_delay_issue message = false)
    [Loader.file_not_found "[Errno 2] No such file or directory: 'orders.csv'";
     Loader.other_fault "[Errno 2] No such file or directory: 'orders.csv'"].
Proof.
  apply (load_failure_reads_as_normal Scenario.above_1000 Sample.now
           "[Errno 2] No such file or directory: 'orders.csv'"); reflexivity.
Defined.

(* ================================================================== *)
(** * 25. Accounts *)
(* ================================================================== *)

(** X23: a registration that reports success can be followed by a
    login: with the same user id, password and role the login succeeds,
    the session records the user and moves to the chat page of the
    role, and for a customer it holds the customer id in normal form,
    for which the order lookup answers as for the id typed at
    registration. *)
Theorem registered_user_can_log_in
    (py : StrMethods) (credentials : gmap string App.UserData) (writable : bool)
    (session : App.SessionState)
    (username password role : string) (customer_id : option string)
    (saved : gmap string App.UserData) (text : string) :
  App.create_new_user py credentials writable username password role customer_id
    = (saved, App.UiSuccess text) ->
  exists after : App.SessionState,
    App.authenticate_user saved session username password role = (after, None, true)
    /\ App.authenticated_user after = Some username
    /\ App.page after = role ++ "_chat"
    /\ (role = "customer" ->
        exists typed : string,
          customer_id = Some typed
          /\ App.session_customer_id after = Some (Lookup.normalize py typed)
          /\ (Tables.on_ascii_text py ->
              Tables.is_ascii typed = true ->
              forall data now,
                get_customer_orders py data now (Lookup.normalize py typed)
                = get_customer_orders py data now typed)).
Proof.
  unfold App.create_new_user.
  destruct (String.eqb username "" || String.eqb password ""); [discriminate |].
  destruct (credentials !! username); [discriminate |].
  destruct (App.len password <? 6)%nat; [discriminate |].
  destruct (String.eqb role "customer") eqn:Hrole.
  - destruct customer_id as [typed |]; [| discriminate].
    destruct (String.eqb typed ""); [discriminate |].
    destruct writable; [| discriminate]. intros [= <- _].
    unfold App.authenticate_user. rewrite lookup_insert_eq. cbn [App.ud_password App.ud_role].
    rewrite !String.eqb_refl, Hrole. eexists. split; [reflexivity |].
    cbn [App.authenticated_user App.page App.session_customer_id].
    split; [reflexivity |]. split; [reflexivity |].
    intros _. exists typed. split; [reflexivity |]. split; [reflexivity |].
    intros Hpy Hascii data now. unfold Lookup.normalize.
    pose proof (NormalForm.normalize_idempotent py typed Hpy Hascii) as Hnorm.
    unfold Lookup.normalize in Hnorm.
    unfold get_customer_orders. destruct data; [reflexivity |]. now rewrite Hnorm.
  - destruct writable; [| discriminate]. intros [= <- _].
    unfold App.authenticate_user. rewrite lookup_insert_eq. cbn [App.ud_password App.ud_role].
    rewrite !String.eqb_refl, Hrole. eexists. split; [reflexivity |].
    cbn [App.authenticated_user App.page].
    split; [reflexivity |]. split; [reflexivity |].
    intros ->. discriminate Hrole.
Qed.


(** X25: a login succeeds exactly when the credentials hold an entry
    for the user id with that password and that role; a login that
    fails shows an error and leaves the session as it was. *)
Theorem login_needs_password_and_role
    (credentials : gmap string App.UserData) (session : App.SessionState)
    (username password expected_role : string) :
  (snd (App.authenticate_user credentials session username password expected_role) = true
   <-> exists entry : App.UserData,
         credentials !! username = Some entry
         /\ App.ud_password entry = password
         /\ App.ud_role entry = expected_role)
  /\ (snd (App.authenticate_user credentials session username password expected_role)
        = false ->
      fst (fst (App.authenticate_user credentials session username password expected_role))
        = session
      /\ exists text : string,
           snd (fst (App.authenticate_user credentials session username password
                       expected_role))
             = Some (App.UiError text)).
Proof.
  unfold App.authenticate_user.
  destruct (credentials !! username) as [entry |].
  - destruct (String.eqb_spec (App.ud_password entry) password) as [Hp | Hp].
    + destruct (String.eqb_spec (App.ud_role entry) expected_role) as [Hr | Hr];
        cbn [fst snd].
      * split; [| discriminate]. split; [intros _; now exists entry | reflexivity].
      * split; [| intros _; split; [reflexivity | eexists; reflexivity]].
        split; [discriminate | intros [d ([= <-] & _ & Hrole)]; congruence].
    + cbn [fst snd]. split; [| intros _; split; [reflexivity | eexists; reflexivity]].
      split; [discriminate | intros [d ([= <-] & Hpass & _)]; congruence].
  - cbn [fst snd]. split; [| intros _; split; [reflexivity | eexists; reflexivity]].
    split; [discriminate | intros [d (Habs & _)]; discriminate].
Qed.

Lemma registered_user_can_log_in_witness :
  exists after : App.SessionState,
    App.authenticate_user Accounts.one_customer Accounts.fresh_session
      "asha" "secret1" "customer" = (after, None, true)
    /\ App.authenticated_user after = Some "asha"
    /\ App.page after = "customer" ++ "_chat"
    /\ ("customer" = "customer" ->
        exists typed : string,
          Some " cust_001 " = Some typed
          /\ App.session_customer_id after = Some (Lookup.normalize ascii_methods typed)
          /\ (Tables.on_ascii_text ascii_methods ->
              Tables.is_ascii typed = true ->
              forall data now,
                get_customer_orders ascii_methods data now
                  (Lookup.normalize ascii_methods typed)
                = get_customer_orders ascii_methods data now typed)).
Proof.
  apply (registered_user_can_log_in ascii_methods ∅ true Accounts.fresh_session
           "asha" "secret1" "customer" (Some " cust_001 ") Accounts.one_customer
           "Account for 'asha' created successfully! You can now log in.").
  vm_compute. reflexivity.
Defined.


Lemma login_needs_password_and_role_witness :
  snd (App.authenticate_user Accounts.one_customer Accounts.fresh_session
         "asha" "secret1" "customer") = true.
Proof.
  apply (login_needs_password_and_role Accounts.one_customer Accounts.fresh_session
           "asha" "secret1" "customer").
  exists (App.mkUserData "secret1" "customer" (Some "CUST_001")).
  split; [vm_compute; reflexivity | split; reflexivity].
Defined.

Lemma delay_issue_iff_order_overdue_witness :
  App.has_delay_issue (check_for_critical_delays (Loaded Sample.tables) Sample.now) = true.
Proof.
  apply (delay_issue_iff_order_overdue Sample.tables Sample.now).
  exists Scenario.shipped_order. split; [right; left; reflexivity |].
  apply critically_delayed_spec. vm_compute. reflexivity.
Defined.

Lemma notification_is_error_iff_delayed_witness :
  App.notification_type
    (check_customer_order_status ascii_methods (Loaded Sample.tables) Sample.now
       " cust_001 ")
  = "error".
Proof.
  apply (notification_is_error_iff_delayed ascii_methods (Loaded Sample.tables)
           Sample.now " cust_001 ").
  exists Sample.tables, Scenario.shipped_order.
  split; [reflexivity |]. split; [right; left; reflexivity |].
  split; vm_compute; reflexivity.
Defined.

(* ================================================================== *)
(** * 26. Thousands separators *)
(* ================================================================== *)

Module Grouping.

Lemma uint_comma_free (d : Decimal.uint) :
  Digits.comma_free (list_ascii_of_string (NilEmpty.string_of_uint d)).
Proof.
  induction d; cbn [NilEmpty.string_of_uint list_ascii_of_string];
    constructor; (reflexivity || assumption).
Qed.

Lemma digits_comma_free (n : Z) : Digits.comma_free (PyStr.digits n).
Proof.
  unfold PyStr.digits, NilZero.string_of_uint.
  destruct (N.to_uint (Z.to_N n)) eqn:E; try (rewrite <- E; apply uint_comma_free).
  repeat constructor.
Qed.

Lemma filter_comma_free (l : list ascii) :
  Digits.comma_free l -> List.filter (fun c => negb (Digits.is_comma c)) l = l.
Proof.
  induction 1 as [|c l Hc _ IH]; [reflexivity |].
  cbn [List.filter]. now rewrite Hc, IH.
Qed.

(** Grouping adds commas and nothing else. *)
Lemma filter_group_rev (ds : list ascii) (k : nat) :
  Digits.comma_free ds ->
  List.filter (fun c => negb (Digits.is_comma c)) (PyStr.group_rev ds k) = ds.
Proof.
  intros H. revert k. induction H as [|d ds Hd _ IH]; intros k; [reflexivity |].
  cbn [PyStr.group_rev]. destruct k as [|k]; cbn [List.filter].
  - change (negb (Digits.is_comma ","%char)) with false. cbn iota.
    now rewrite Hd, IH.
  - now rewrite Hd, IH.
Qed.

Lemma without_commas_append (a b : string) :
  Digits.without_commas (a ++ b) = Digits.without_commas a ++ Digits.without_commas b.
Proof.
  unfold Digits.without_commas. induction a as [|c a IH].
  - reflexivity.
  - rewrite PyStrFacts.append_cons. cbn [list_ascii_of_string List.filter].
    destruct (negb (Digits.is_comma c)); cbn [string_of_list_ascii];
      [rewrite PyStrFacts.append_cons; now rewrite IH | exact IH].
Qed.

Lemma without_commas_group (n : Z) :
  Digits.without_commas (PyStr.group_thousands n)
  = NilZero.string_of_uint (N.to_uint (Z.to_N n)).
Proof.
  unfold Digits.without_commas, PyStr.group_thousands.
  rewrite list_ascii_of_string_of_list_ascii, filter_rev, filter_group_rev.
  - rewrite rev_involutive. unfold PyStr.digits. apply string_of_list_ascii_of_string.
  - apply Forall_rev. apply digits_comma_free.
Qed.

Lemma of_int_nonneg (n : Z) :
  0 <= n -> PyStr.of_int n = NilZero.string_of_uint (N.to_uint (Z.to_N n)).
Proof. destruct n; [reflexivity | reflexivity | lia]. Qed.

Lemma without_commas_of_int (n : Z) :
  0 <= n -> Digits.without_commas (PyStr.of_int n) = PyStr.of_int n.
Proof.
  intros Hn. rewrite of_int_nonneg by exact Hn. unfold Digits.without_commas.
  rewrite filter_comma_free.
  - apply string_of_list_ascii_of_string.
  - apply (digits_comma_free n).
Qed.

Lemma div_half_even_nonneg (n d : Z) : 0 <= n -> 0 < d -> 0 <= PyFloat.div_half_even n d.
Proof.
  intros Hn Hd. unfold PyFloat.div_half_even.
  pose proof (Z.div_pos n d Hn Hd).
  destruct (2 * (n mod d) ?= d); [destruct (Z.even (n / d)) | |]; lia.
Qed.

Lemma hundredths_nonneg (m : positive) (e : Z) : 0 <= PyFloat.hundredths m e.
Proof.
  unfold PyFloat.hundredths. destruct (0 <=? e) eqn:E.
  - apply Z.leb_le in E. pose proof (Z.pow_nonneg 2 e). nia.
  - apply div_half_even_nonneg; [lia |]. apply Z.pow_pos_nonneg; [lia |].
    apply Z.leb_gt in E. lia.
Qed.

End Grouping.

(** X26: the thousands separators only add commas.  Without its commas
    the text of an integer under [,] is [str] of the integer, and the
    text of a float under [,.2f] is its text under [.2f]; so a float
    cell of a money column of a table, without its commas, is the
    currency sign followed by what a plain column shows for the same
    float. *)
Theorem separators_only_add_commas :
  (forall z : Z, Digits.without_commas (PyStr.format_int_comma z) = PyStr.of_int z)
  /\ (forall x : spec_float,
        Digits.without_commas (PyFloat.format_comma_2f x) = PyFloat.format_2f x)
  /\ (forall (x : spec_float) (money plain : string),
        is_money_column money = true ->
        is_money_column plain = false ->
        Digits.without_commas (format_cell money (CVal (SFloat x)))
          = "$" ++ format_cell plain (CVal (SFloat x))).
Proof.
  assert (Hfloat : forall x : spec_float,
            Digits.without_commas (PyFloat.format_comma_2f x) = PyFloat.format_2f x).
  { intros x. unfold PyFloat.format_comma_2f, PyFloat.format_2f, PyFloat.format_fixed2.
    destruct x as [s | s | | s m e].
    - destruct s; reflexivity.
    - destruct s; reflexivity.
    - reflexivity.
    - pose proof (Grouping.hundredths_nonneg m e) as Hh.
      assert (Hq : 0 <= PyFloat.hundredths m e / 100) by (apply Z.div_pos; lia).
      assert (Hr : 0 <= PyFloat.hundredths m e mod 100) by (apply Z.mod_pos_bound; lia).
      rewrite !Grouping.without_commas_append, Grouping.without_commas_group.
      rewrite <- Grouping.of_int_nonneg by exact Hq.
      assert (Hpad : Digits.without_commas (PyStr.pad2 (PyFloat.hundredths m e mod 100))
                     = PyStr.pad2 (PyFloat.hundredths m e mod 100)).
      { unfold PyStr.pad2. destruct (PyFloat.hundredths m e mod 100 <? 10);
          [rewrite Grouping.without_commas_append |];
          now rewrite Grouping.without_commas_of_int by exact Hr. }
      rewrite Hpad. destruct s; reflexivity. }
  split; [| split; [exact Hfloat |]].
  - intros z. unfold PyStr.format_int_comma.
    rewrite Grouping.without_commas_append, Grouping.without_commas_group.
    destruct z as [|p|p]; reflexivity.
  - intros x money plain Hmoney Hplain. cbn [format_cell].
    rewrite Hmoney, Hplain, Grouping.without_commas_append, Hfloat. reflexivity.
Qed.

Lemma separators_only_add_commas_witness :
  Digits.without_commas (format_cell "unit_price" (CVal (SFloat (PyFloat.of_Z 1234567))))
  = "$" ++ format_cell "weight" (CVal (SFloat (PyFloat.of_Z 1234567))).
Proof.
  apply separators_only_add_commas; reflexivity.
Defined.

(* ================================================================== *)
(** * 27. The tool loop of the chat *)
(* ================================================================== *)

Lemma registered_customer (name : string) :
  Chat.registered "customer" name = String.eqb name "get_customer_orders".
Proof. unfold Chat.registered. cbn. now rewrite orb_false_r. Qed.

(** X27: in the customer role the tool loop runs no snippet, whatever
    the model asks for: the steps do not depend on the interpreter, on
    the library objects of the business tool or on its fault texts. *)
Theorem tool_loop_runs_the_tool_of_the_role
    (py : StrMethods) (data : load_result) (now : Timestamp)
    (type_error_text : string -> gmap string string -> string)
    (parts : list Chat.part) (steps : list Chat.tool_step)
    (exec1 exec2 : interpreter) (library1 library2 : string -> pyvalue)
    (value_error1 value_error2 : ambiguity -> string * string) :
  Chat.run_parts py exec1 library1 value_error1 data now type_error_text "customer"
    parts steps
  = Chat.run_parts py exec2 library2 value_error2 data now type_error_text "customer"
      parts steps.
Proof.
  revert steps.
  induction parts as [|[text | name args followup] parts IH]; intros steps;
    cbn [Chat.run_parts]; [reflexivity | apply IH |].
  rewrite registered_customer.
  destruct (String.eqb name "get_customer_orders") eqn:Hname; [| apply IH].
  unfold Chat.invoke. rewrite Hname.
  destruct (args !! "customer_id"); [destruct (size args =? 1)%nat |];
    [destruct followup as [e |]; [destruct (Chat.caught name e) |] | |];
    try reflexivity; try apply IH;
    match goal with
    | |- context [Chat.caught ?n ?e] => destruct (Chat.caught n e)
    end; try reflexivity; apply IH.
Qed.

Lemma call_steps_app (a b : list Chat.tool_step) :
  Chat.call_steps (a ++ b) = (Chat.call_steps a ++ Chat.call_steps b)%list.
Proof. unfold Chat.call_steps. apply List.filter_app. Qed.

(** What the [try] statement records for a fault is an output step. *)
Lemma caught_is_output (name : string) (e : PyException) (step : Chat.tool_step) :
  Chat.caught name e = Returns step -> Chat.call_steps [step] = [].
Proof.
  unfold Chat.caught. destruct (is_Exception e); [| discriminate].
  destruct (exc_str e); [| discriminate]. now intros [= <-].
Qed.

(** X28: the trace records every function call of the model, in order,
    also the calls it does not run: when the loop ends, the call steps
    of the trace are the calls among the parts; and a call to a name
    that is not the tool of the role leaves no output step. *)
Theorem trace_records_every_call
    (py : StrMethods) (exec : interpreter) (library : string -> pyvalue)
    (value_error : ambiguity -> string * string) (data : load_result)
    (now : Timestamp) (type_error_text : string -> gmap string string -> string)
    (role : string) (parts : list Chat.part) (steps : list Chat.tool_step) :
  (Chat.run_parts py exec library value_error data now type_error_text role parts []
     = Returns steps ->
   Chat.call_steps steps = Chat.calls_of parts)
  /\ (forall (name : string) (args : gmap string string) (followup : option PyException),
        Chat.registered role name = false ->
        Chat.run_parts py exec library value_error data now type_error_text role
          [Chat.PartCall name args followup] []
        = Returns [Chat.ToolCall name args]).
Proof.
  split.
  - assert (Hgen : forall acc,
              Chat.run_parts py exec library value_error data now type_error_text role
                parts acc = Returns steps ->
              Chat.call_steps steps = (Chat.call_steps acc ++ Chat.calls_of parts)%list).
    { induction parts as [|[text | name args followup] parts IH]; intros acc;
        cbn [Chat.run_parts Chat.calls_of omap].
      - intros [= <-]. now rewrite app_nil_r.
      - apply IH.
      - change (omap _ parts) with (Chat.calls_of parts).
        destruct (Chat.registered role name).
        + destruct (Chat.invoke py exec library value_error data now type_error_text
                      name args) as [r | e].
          * destruct followup as [e |].
            -- destruct (Chat.caught name e) as [step | escaped] eqn:Hcaught;
                 [| discriminate].
               apply caught_is_output in Hcaught.
               intros H. apply IH in H. rewrite H, !call_steps_app, Hcaught. cbn.
               rewrite ?app_nil_r, <- ?app_assoc. reflexivity.
            -- intros H. apply IH in H. rewrite H, !call_steps_app. cbn.
               rewrite ?app_nil_r, <- ?app_assoc. reflexivity.
          * destruct (Chat.caught name e) as [step | escaped] eqn:Hcaught;
              [| discriminate].
            apply caught_is_output in Hcaught.
            intros H. apply IH in H. rewrite H, !call_steps_app, Hcaught. cbn.
            rewrite ?app_nil_r, <- ?app_assoc. reflexivity.
        + intros H. apply IH in H. rewrite H, call_steps_app. cbn.
          now rewrite <- app_assoc. }
    intros H. now apply Hgen in H.
  - intros name args followup Hreg. cbn [Chat.run_parts]. now rewrite Hreg.
Qed.

Lemma trace_records_every_call_witness :
  Chat.run_parts ascii_methods Sample.exec Sample.library Sample.value_error
    (Loaded Sample.tables) Sample.now
    (fun _ _ => "unexpected keyword argument") "customer"
    [Chat.PartCall "execute_pandas_code_business" {["python_code" := "result = 1 / 0"]} None]
    []
  = Returns [Chat.ToolCall "execute_pandas_code_business"
               {["python_code" := "result = 1 / 0"]}].
Proof.
  apply (trace_records_every_call ascii_methods Sample.exec Sample.library
           Sample.value_error (Loaded Sample.tables)
           Sample.now (fun _ _ => "unexpected keyword argument") "customer" [] []).
  reflexivity.
Defined.

(** X29: in the customer role a call of the lookup with the one keyword
    [customer_id] is answered by the report for that id, whatever id it
    is; a call whose keywords are not exactly that one is answered by
    the text of the fault, and in both cases the loop goes on with the
    next part. *)
Theorem lookup_call_binds_customer_id
    (py : StrMethods) (exec : interpreter) (library : string -> pyvalue)
    (value_error : ambiguity -> string * string) (data : load_result)
    (now : Timestamp) (type_error_text : string -> gmap string string -> string)
    (args : gmap string string) (rest : list Chat.part) (steps : list Chat.tool_step) :
  (forall customer_id : string,
     args = {["customer_id" := customer_id]} ->
     Chat.run_parts py exec library value_error data now type_error_text "customer"
       (Chat.PartCall "get_customer_orders" args None :: rest) steps
     = Chat.run_parts py exec library value_error data now type_error_text "customer" rest
         (steps ++ [Chat.ToolCall "get_customer_orders" args;
                    Chat.ToolOutput (get_customer_orders py data now customer_id)])%list)
  /\ (dom args <> {["customer_id"]} ->
      Chat.run_parts py exec library value_error data now type_error_text "customer"
        (Chat.PartCall "get_customer_orders" args None :: rest) steps
      = Chat.run_parts py exec library value_error data now type_error_text "customer" rest
          (steps ++ [Chat.ToolCall "get_customer_orders" args;
                     Chat.ToolOutput
                       ("Error executing get_customer_orders: "
                          ++ type_error_text "get_customer_orders" args)])%list).
Proof.
  split.
  - intros customer_id ->. cbn [Chat.run_parts]. rewrite registered_customer.
    cbn [String.eqb]. unfold Chat.invoke.
    rewrite String.eqb_refl, lookup_singleton_eq, map_size_singleton. cbn.
    now rewrite <- app_assoc.
  - intros Hdom. cbn [Chat.run_parts]. rewrite registered_customer.
    rewrite String.eqb_refl. unfold Chat.invoke. rewrite String.eqb_refl.
    assert (Hfault : match args !! "customer_id" with
                     | Some customer_id =>
                         if (size args =? 1)%nat
                         then Returns (get_customer_orders py data now customer_id)
                         else Propagates
                                (Chat.type_error type_error_text "get_customer_orders" args)
                     | None =>
                         Propagates
                           (Chat.type_error type_error_text "get_customer_orders" args)
                     end
                     = Propagates
                         (Chat.type_error type_error_text "get_customer_orders" args)).
    { destruct (args !! "customer_id") as [customer_id |] eqn:Hkey; [| reflexivity].
      destruct (size args =? 1)%nat eqn:Hsize; [| reflexivity].
      exfalso. apply Hdom. apply Nat.eqb_eq in Hsize.
      rewrite <- (size_dom (D := gset string)) in Hsize.
      apply size_1_elem_of in Hsize as [k Hk]. apply leibniz_equiv in Hk.
      rewrite Hk. f_equal.
      assert (Hin : "customer_id" ∈ dom args) by (apply elem_of_dom; eauto).
      rewrite Hk in Hin. apply elem_of_singleton in Hin. now subst k. }
    rewrite Hfault. cbn. now rewrite <- app_assoc.
Qed.

Lemma lookup_call_binds_customer_id_witness :
  Chat.run_parts ascii_methods Sample.exec Sample.library Sample.value_error
    (Loaded Sample.tables) Sample.now
    (fun _ _ => "unexpected keyword argument") "customer"
    [Chat.PartCall "get_customer_orders" {["customer_id" := "cust_004"]} None] []
  = Returns [Chat.ToolCall "get_customer_orders" {["customer_id" := "cust_004"]};
             Chat.ToolOutput "ERROR: Customer ID 'CUST_004' not found in the system."].
Proof.
  destruct (lookup_call_binds_customer_id ascii_methods Sample.exec Sample.library
              Sample.value_error (Loaded Sample.tables)
              Sample.now (fun _ _ => "unexpected keyword argument")
              {["customer_id" := "cust_004"]} [] []) as [Hbound _].
  rewrite (Hbound "cust_004"); reflexivity.
Defined.
